(** * clhaskell infrastructure: a shallow embedding of the CDK application

    The repository declares AWS infrastructure with the CDK.  Every source
    file is a constructor that declares constructs in a scope, so the
    embedding is a small "declare" monad over a scope (the ordered list of
    child constructs and the explicit dependency edges), one module per
    source file, and the entry points as programs that may throw.

    Strings are the Standard Library's [string]; JavaScript's
    [undefined | string] values are [option string]. *)

From Stdlib Require Import String Ascii List Bool Arith Lia.
From stdpp Require Import base option gmap strings.
Import ListNotations.

Open Scope string_scope.
Open Scope list_scope.

(** ** JavaScript primitives used by the sources *)

Module Js.

(** A value read from CDK context or [process.env]. *)
Definition value := option string.

(** Truthiness of [undefined | string]: only a non-empty string is truthy. *)
Definition truthy (v : value) : bool :=
  match v with
  | Some s => negb (String.eqb s EmptyString)
  | None => false
  end.

(** [a || b] *)
Definition or (a b : value) : value := if truthy a then a else b.

(** A value interpolated in a template literal. *)
Definition interpolate (v : value) : string :=
  match v with
  | Some s => s
  | None => "undefined"
  end.

Definition is_lower (c : ascii) : bool :=
  Nat.leb 97 (nat_of_ascii c) && Nat.leb (nat_of_ascii c) 122.

Definition is_upper (c : ascii) : bool :=
  Nat.leb 65 (nat_of_ascii c) && Nat.leb (nat_of_ascii c) 90.

Definition upper_ascii (c : ascii) : ascii :=
  if is_lower c then ascii_of_nat (nat_of_ascii c - 32) else c.

Definition lower_ascii (c : ascii) : ascii :=
  if is_upper c then ascii_of_nat (nat_of_ascii c + 32) else c.

(** [String.prototype.toUpperCase] and [toLowerCase] on ASCII text: the
    letters a-z and A-Z are mapped, every other character is kept.  On
    text with other than 7-bit characters JavaScript maps more, and may
    change the length; the sources apply the two to field names and to
    the stage names Gamma and Prod. *)
Fixpoint toUpperCase (s : string) : string :=
  match s with
  | EmptyString => EmptyString
  | String c s' => String (upper_ascii c) (toUpperCase s')
  end.

Fixpoint toLowerCase (s : string) : string :=
  match s with
  | EmptyString => EmptyString
  | String c s' => String (lower_ascii c) (toLowerCase s')
  end.

(** Text of 7-bit characters only. *)
Fixpoint isAscii (s : string) : bool :=
  match s with
  | EmptyString => true
  | String c s' => Nat.ltb (nat_of_ascii c) 128 && isAscii s'
  end.

(** [s.charAt(n)]: the one-character string at index [n], or the empty
    string out of range. *)
Definition charAt (n : nat) (s : string) : string :=
  match String.get n s with
  | Some c => String c EmptyString
  | None => EmptyString
  end.

(** [s.slice(n)] for a non-negative [n]. *)
Fixpoint slice (n : nat) (s : string) : string :=
  match n, s with
  | O, _ => s
  | S n', String _ s' => slice n' s'
  | S _, EmptyString => EmptyString
  end.

(** [t] is a suffix of [r]. *)
Definition ends_with (t r : string) : Prop := exists u, r = u +:+ t.

(** [t] occurs somewhere in [r]. *)
Definition contains (t r : string) : Prop := exists u v, r = u +:+ t +:+ v.

(** [Record<string, string>]: the own enumerable entries in insertion
    order, as [Object.entries] yields them. *)
Definition record := list (string * string).

Definition entries (r : record) : list (string * string) := r.

(** [r[key]] *)
Fixpoint index (r : record) (key : string) : value :=
  match r with
  | [] => None
  | (k, v) :: r' => if String.eqb k key then Some v else index r' key
  end.

End Js.

(** ** IAM condition operators

    The provider evaluates the conditions; the sources only write the
    patterns.  [StringLike] is IAM's case-sensitive match where [*] stands
    for any run of characters and [?] for any single character. *)

Module Iam.

Fixpoint StringLike (pattern : string) : string -> bool :=
  match pattern with
  | EmptyString => fun s => String.eqb s EmptyString
  | String c p' =>
      if Ascii.eqb c "*" then
        fix star (s : string) : bool :=
          StringLike p' s ||
          match s with
          | EmptyString => false
          | String _ s' => star s'
          end
      else
        fun s =>
          match s with
          | EmptyString => false
          | String d s' =>
              (Ascii.eqb c "?" || Ascii.eqb c d) && StringLike p' s'
          end
  end.

Definition StringEquals (expected actual : string) : bool :=
  String.eqb expected actual.

(** A string with no wildcard character in it. *)
Fixpoint literal (s : string) : bool :=
  match s with
  | EmptyString => true
  | String c s' => negb (Ascii.eqb c "*") && negb (Ascii.eqb c "?") && literal s'
  end.

(** Two patterns overlap when some string matches both. *)
Definition overlap (p q : string) : Prop :=
  exists name, StringLike p name = true /\ StringLike q name = true.

End Iam.

(** ** The CDK core: environments, stacks, scopes *)

Module Cdk.

(** [Environment]: [{ account?, region? }] *)
Record Environment := {
  account : Js.value;
  region : Js.value;
}.

(** [StackProps], the part every stack's props extend. *)
Record StackProps := {
  env : option Environment;
  description : option string;
}.

(** An account or region of a stack: given, or left to the deploy-time
    pseudo parameter. *)
Inductive resolved :=
| Concrete (s : string)
| Pseudo (name : string).

Definition render (r : resolved) : string :=
  match r with
  | Concrete s => s
  | Pseudo name => "${" +:+ name +:+ "}"
  end.

(** What [new Stack(scope, id, props)] resolves: [props.env.account] and
    [props.env.region], each falling back to its pseudo parameter. *)
Record Stack := {
  stack_account : resolved;
  stack_region : resolved;
}.

Definition resolve (pseudo : string) (v : Js.value) : resolved :=
  match v with
  | Some s => Concrete s
  | None => Pseudo pseudo
  end.

(** [props.env?.field] *)
Definition env_field (field : Environment -> Js.value) (props : StackProps) : Js.value :=
  match env props with
  | Some e => field e
  | None => None
  end.

Definition new_Stack (props : StackProps) : Stack :=
  {| stack_account := resolve "AWS::AccountId" (env_field account props);
     stack_region := resolve "AWS::Region" (env_field region props) |}.

(** The components given to [Stack.formatArn]. *)
Record ArnComponents := {
  arn_account : string;
  arn_region : string;
  arn_resource : string;
  arn_resourceName : string;
  arn_service : string;
}.

End Cdk.

(** ** Sequencing

    The constructors thread a scope and the entry points thread the list of
    stacks and may throw; both are written in one notation. *)

Class Sequenced (M : Type -> Type) := {
  ret {A : Type} (a : A) : M A;
  bind {A B : Type} (m : M A) (k : A -> M B) : M B;
}.

Notation "x <- c ;; k" := (bind c (fun x => k))
  (at level 100, c at next level, right associativity).
Notation "c ;;; k" := (bind c (fun _ => k))
  (at level 100, right associativity).

(** [for (const x of xs) body] and [xs.forEach(body)] *)
Fixpoint for_of {M : Type -> Type} `{Sequenced M} {A : Type}
    (xs : list A) (body : A -> M unit) : M unit :=
  match xs with
  | [] => ret tt
  | x :: xs' => body x ;;; for_of xs' body
  end.

(** ** Constructs

    A construct is declared in a scope under an id and refers to the
    other constructs of its scope by their ids, so two props that receive
    the same object hold the same [ref]. *)

Module Construct.

Definition ref := string.

(** A prop value: a string known at synthesis, or an attribute of
    another construct that the engine fills in at deploy time. *)
Inductive token :=
| Literal (s : string)
| Attribute (owner : ref) (name : string)
| Arn (components : Cdk.ArnComponents).

Inductive Effect := ALLOW | DENY.

(** One entry [{ operator: { key: values } }] of a conditions object. *)
Record Condition := {
  operator : string;
  key : string;
  values : list string;
}.

Record PolicyStatement := {
  effect : Effect;
  actions : list string;
  resources : list token;
  conditions : list Condition;
}.

Inductive Principal :=
| AccountPrincipal (accountId : string)
| FederatedPrincipal (federated : token) (conditions : list Condition)
                     (assumeRoleAction : string).

Record RoleProps := {
  roleName : string;
  assumedBy : Principal;
  inlinePolicies : list (string * list PolicyStatement);
  description : option string;
  maxSessionDurationHours : option nat;
  managedPolicies : list string;
  policy : list PolicyStatement;
}.

Inductive RemovalPolicy := DESTROY | RETAIN_ON_UPDATE_OR_DELETE.

Inductive CertificateValidation :=
| fromDns (zone : option ref).

Record ErrorResponse := {
  httpStatus : nat;
  responseHttpStatus : nat;
  responsePagePath : string;
}.

Inductive Resource :=
| Bucket (bucketName : string) (publicReadAccess : bool)
         (blockAllPublicAccess : bool) (removalPolicy : RemovalPolicy)
         (autoDeleteObjects : bool)
| RoleFromArn (roleArn : Cdk.ArnComponents)
| Role (props : RoleProps)
| OpenIdConnectProvider (url : string) (clientIds : list string)
| OriginAccessIdentity (comment : string)
| PublicHostedZone (zoneName : string) (removal : option RemovalPolicy)
| HostedZoneFromAttributes (hostedZoneId zoneName : string)
| Certificate (domainName : string) (subjectAlternativeNames : list string)
              (validation : CertificateValidation)
| CertificateFromArn (certificateArn : string)
| CrossAccountZoneDelegationRecord (delegationRole : ref)
                                   (delegatedZone : ref)
                                   (parentHostedZoneName : string)
| Distribution (originBucket : ref) (viewerProtocolPolicy cachePolicy : string)
               (domainNames : list string)
               (certificate : ref) (defaultRootObject : string)
               (errorResponses : list ErrorResponse)
| ARecord (zone : ref) (recordName : string) (aliasTarget : ref)
| BucketDeployment (sourceAsset : list string) (destinationBucket : ref)
                   (distribution : ref) (distributionPaths : list string)
| CfnOutput (value : token) (description : string)
            (exportName : option string).

Record Node := {
  id : string;
  resource : Resource;
}.

(** The declaration graph of one stack: its children in the order they
    were declared, the explicit dependency edges [(dependent, on)] added
    with [node.addDependency], and the read grants given on buckets. *)
Record Scope := {
  children : list Node;
  dependencies : list (ref * ref);
  grants : list (ref * ref);
}.

Definition empty : Scope :=
  {| children := []; dependencies := []; grants := [] |}.

(** The constructor bodies run in a state monad over the scope. *)
Definition Build (A : Type) : Type := Scope -> A * Scope.

#[global] Instance Build_Sequenced : Sequenced Build := {|
  ret := fun A (a : A) sc => (a, sc);
  bind := fun A B (m : Build A) (k : A -> Build B) sc =>
            let (a, sc') := m sc in k a sc';
|}.

(** [new Resource(this, id, props)] *)
Definition declare (i : string) (r : Resource) : Build ref :=
  fun sc =>
    (i, {| children := children sc ++ [{| id := i; resource := r |}];
           dependencies := dependencies sc;
           grants := grants sc |}).

(** [dependent.node.addDependency(on)] *)
Definition addDependency (dependent on : ref) : Build unit :=
  fun sc =>
    (tt, {| children := children sc;
            dependencies := dependencies sc ++ [(dependent, on)];
            grants := grants sc |}).

(** [bucket.grantRead(grantee)] *)
Definition grantRead (bucket grantee : ref) : Build unit :=
  fun sc =>
    (tt, {| children := children sc;
            dependencies := dependencies sc;
            grants := grants sc ++ [(bucket, grantee)] |}).

(** A method that mutates an already declared construct. *)
Definition update (target : ref) (f : Resource -> Resource) : Build unit :=
  fun sc =>
    (tt, {| children :=
              map (fun n => if String.eqb (id n) target
                            then {| id := id n; resource := f (resource n) |}
                            else n) (children sc);
            dependencies := dependencies sc;
            grants := grants sc |}).

Definition find (sc : Scope) (i : ref) : option Resource :=
  resource <$> List.find (fun n => String.eqb (id n) i) (children sc).

Definition ids (sc : Scope) : list string := map id (children sc).

(** The roles among some constructs, in their order. *)
Definition rolesOf (nodes : list Node) : list RoleProps :=
  flat_map (fun n => match resource n with
                     | Role p => [p]
                     | _ => []
                     end) nodes.

(** A synthesized stack: where it deploys and what it declares. *)
Record Synthesized := {
  stack : Cdk.Stack;
  stackName : string;
  scope : Scope;
}.

End Construct.

Import Construct.

(** ** src/infra/lib/dns-stack.ts *)

Module DnsStack.

Record DnsStackProps := {
  base : Cdk.StackProps;
  domainName : string;
  trustedAccounts : Js.record;
}.

(** The record-name pattern of the ChangeResourceRecordSets condition. *)
Definition recordNamePattern (stageName domain : string) : string :=
  "*" +:+ stageName +:+ "." +:+ domain.

(** The props of the role declared for one entry of [trustedAccounts]. *)
Definition crossAccountRole (hostedZone : ref) (domain stageName account : string)
  : RoleProps :=
  {| roleName := "CrossAccountDnsManagementRole-" +:+ stageName;
     assumedBy := AccountPrincipal account;
     inlinePolicies :=
       [("delegation",
         [ {| effect := ALLOW;
              actions := ["route53:ListHostedZonesByName"];
              resources := [Literal "*"];
              conditions := [] |};
           {| effect := ALLOW;
              actions := ["route53:GetHostedZone"];
              resources := [Attribute hostedZone "hostedZoneArn"];
              conditions := [] |};
           {| effect := ALLOW;
              actions := ["route53:ChangeResourceRecordSets"];
              resources := [Attribute hostedZone "hostedZoneArn"];
              conditions :=
                [ {| operator := "ForAnyValue:StringLike";
                     key := "route53:ChangeResourceRecordSetsNormalizedRecordNames";
                     values := [recordNamePattern stageName domain] |} ] |} ])];
     description := None;
     maxSessionDurationHours := None;
     managedPolicies := [];
     policy := [] |}.

(** [zone.applyRemovalPolicy(policy)] *)
Definition applyRemovalPolicy (zone : ref) (policy : RemovalPolicy) : Build unit :=
  Construct.update zone
    (fun r => match r with
              | PublicHostedZone name _ => PublicHostedZone name (Some policy)
              | other => other
              end).

Definition constructor (stackId : string) (props : DnsStackProps) : Build unit :=
  hostedZone <- declare "RootHostedZone"
                  (PublicHostedZone (domainName props) None) ;;
  applyRemovalPolicy hostedZone RETAIN_ON_UPDATE_OR_DELETE ;;;
  for_of (Js.entries (trustedAccounts props))
    (fun entry =>
       let stageName := fst entry in
       let account := snd entry in
       crossAccountRole <-
         declare ("CrossAccountDnsManagementRole-" +:+ stageName)
           (Role (crossAccountRole hostedZone (domainName props) stageName account)) ;;
       declare ("CrossAccountRoleArn-" +:+ stageName)
         (CfnOutput (Attribute crossAccountRole "roleArn")
            "ARN of the cross-account DNS management role"
            (Some (stackId +:+ "-CrossAccountRoleArn-" +:+ stageName))) ;;;
       ret tt) ;;;
  declare "HostedZoneId"
    (CfnOutput (Attribute hostedZone "hostedZoneId") "Hosted Zone ID"
       (Some (stackId +:+ "-HostedZoneId"))) ;;;
  declare "HostedZoneName"
    (CfnOutput (Attribute hostedZone "zoneName") "Hosted Zone Name"
       (Some (stackId +:+ "-HostedZoneName"))) ;;;
  declare "NameServers"
    (CfnOutput (Attribute hostedZone "hostedZoneNameServers")
       "Name servers for the hosted zone" None) ;;;
  ret tt.

Definition new (stackId : string) (props : DnsStackProps) : Synthesized :=
  {| stack := Cdk.new_Stack (base props);
     stackName := stackId;
     scope := snd (constructor stackId props Construct.empty) |}.

(** The roles a synthesized DNS stack declares, in declaration order. *)
Definition roles (s : Synthesized) : list RoleProps :=
  Construct.rolesOf (children (scope s)).

(** The record-name patterns under which a role may change record sets. *)
Definition changePatterns (r : RoleProps) : list string :=
  flat_map
    (fun st =>
       if existsb (String.eqb "route53:ChangeResourceRecordSets") (actions st)
       then flat_map values (conditions st)
       else [])
    (flat_map snd (inlinePolicies r)).

End DnsStack.

(** ** src/infra/lib/certificate-stack.ts *)

Module RootCertificateStack.

Record RootCertificateStackProps := {
  base : Cdk.StackProps;
  rootHostedZoneId : string;
  rootHostedZoneName : string;
}.

(** [{ ...props, env: { region: "us-east-1" } }] *)
Definition superProps (props : RootCertificateStackProps) : Cdk.StackProps :=
  {| Cdk.env := Some {| Cdk.account := None; Cdk.region := Some "us-east-1" |};
     Cdk.description := Cdk.description (base props) |}.

Definition constructor (props : RootCertificateStackProps) : Build unit :=
  zone <- declare "HostedZone"
            (HostedZoneFromAttributes (rootHostedZoneId props)
               (rootHostedZoneName props)) ;;
  certificate <-
    declare "MultiDomainCertificate"
      (Certificate (rootHostedZoneName props)
         [ "*." +:+ rootHostedZoneName props;
           "prod." +:+ rootHostedZoneName props ]
         (fromDns (Some zone))) ;;
  declare "CertificateArnOutput"
    (CfnOutput (Attribute certificate "certificateArn")
       "ARN of the ACM Certificate" None) ;;;
  ret tt.

Definition new (stackId : string) (props : RootCertificateStackProps) : Synthesized :=
  {| stack := Cdk.new_Stack (superProps props);
     stackName := stackId;
     scope := snd (constructor props Construct.empty) |}.

End RootCertificateStack.

(** ** src/infra/lib/static-website-stack.ts *)

Module StaticWebsiteStack.

Record StaticWebsiteStackProps := {
  base : Cdk.StackProps;
  dnsAccountId : string;
  rootHostedZoneName : string;
  domainName : string;
  stageName : string;
}.

Definition delegationRoleArn (props : StaticWebsiteStackProps) : Cdk.ArnComponents :=
  {| Cdk.arn_account := dnsAccountId props;
     Cdk.arn_region := EmptyString;
     Cdk.arn_resource := "role";
     Cdk.arn_resourceName := "CrossAccountDnsManagementRole-" +:+ stageName props;
     Cdk.arn_service := "iam" |}.

(** [path.join(__dirname, "..", "..", "website", "dist")] *)
Definition websiteBuildPath : list string :=
  ["__dirname"; ".."; ".."; "website"; "dist"].

Definition constructor (this : Cdk.Stack) (props : StaticWebsiteStackProps)
  : Build unit :=
  bucket <- declare "SiteBucket"
              (Bucket (stageName props +:+ "-website-" +:+
                         Cdk.render (Cdk.stack_account this))
                 false true DESTROY true) ;;
  delegationRole <- declare "DelegationRole"
                      (RoleFromArn (delegationRoleArn props)) ;;
  oai <- declare "OAI"
           (OriginAccessIdentity ("OAI for " +:+ domainName props)) ;;
  grantRead bucket oai ;;;
  subdomainHostedZone <- declare "subdomainHostedZone"
                           (PublicHostedZone (domainName props) None) ;;
  certificate <-
    declare "SubdomainCertificate"
      (Certificate (domainName props)
         (if String.eqb (stageName props) "prod"
          then [rootHostedZoneName props]
          else [])
         (fromDns None)) ;;
  delegationRecord <-
    declare ("DelegationRecord-" +:+ stageName props)
      (CrossAccountZoneDelegationRecord delegationRole subdomainHostedZone
         (rootHostedZoneName props)) ;;
  addDependency certificate delegationRecord ;;;
  distribution <-
    declare "Distribution"
      (Distribution bucket "REDIRECT_TO_HTTPS" "CACHING_OPTIMIZED"
         (if String.eqb (stageName props) "prod"
          then [rootHostedZoneName props; domainName props]
          else [domainName props])
         certificate "index.html"
         [ {| httpStatus := 404;
              responseHttpStatus := 200;
              responsePagePath := "/index.html" |} ]) ;;
  declare "AliasRecord"
    (ARecord subdomainHostedZone (domainName props) distribution) ;;;
  crossAccountDelegationRecord <-
    declare "subdomainDelegationRecord"
      (CrossAccountZoneDelegationRecord delegationRole subdomainHostedZone
         (rootHostedZoneName props)) ;;
  declare "WebsiteDeployment"
    (BucketDeployment websiteBuildPath bucket distribution ["/*"]) ;;;
  declare "DelegationRecord"
    (CfnOutput (Attribute subdomainHostedZone "hostedZoneId")
       "Subdomain Hosted Zone ID" None) ;;;
  declare "BucketName"
    (CfnOutput (Attribute bucket "bucketName") "S3 Bucket Name" None) ;;;
  declare "DistributionId"
    (CfnOutput (Attribute distribution "distributionId")
       "CloudFront Distribution ID" None) ;;;
  declare "DistributionDomainName"
    (CfnOutput (Attribute distribution "distributionDomainName")
       "CloudFront Distribution Domain Name" None) ;;;
  declare "WebsiteUrl"
    (CfnOutput (Literal ("https://" +:+ domainName props)) "Website URL" None) ;;;
  ret tt.

Definition new (stackId : string) (props : StaticWebsiteStackProps) : Synthesized :=
  let this := Cdk.new_Stack (base props) in
  {| stack := this;
     stackName := stackId;
     scope := snd (constructor this props Construct.empty) |}.

End StaticWebsiteStack.

(** ** src/unnamed/part_004: the static-website stack that imports the
       shared certificate for the stages other than prod *)

Module ImportingStaticWebsiteStack.

(** The props interface is the one of [StaticWebsiteStack], field by field. *)
Import StaticWebsiteStack.

Definition capitalizeFirstLetter (val : string) : string :=
  Js.toUpperCase (Js.charAt 0 val) +:+ Js.slice 1 val.

Definition delegationRoleArn (props : StaticWebsiteStackProps) : Cdk.ArnComponents :=
  {| Cdk.arn_account := dnsAccountId props;
     Cdk.arn_region := EmptyString;
     Cdk.arn_resource := "role";
     Cdk.arn_resourceName :=
       "CrossAccountDnsManagementRole-" +:+ capitalizeFirstLetter (stageName props);
     Cdk.arn_service := "iam" |}.

Definition certificateArn (props : StaticWebsiteStackProps) : string :=
  "arn:aws:acm:us-east-1:" +:+ dnsAccountId props +:+
  ":certificate/cf8a651d-bc88-46b5-b84a-4b64b0cfc594".

(** [path.resolve(__dirname, "../../clhaskellelectric.com/dist")] *)
Definition websiteBuildPath : list string :=
  ["__dirname"; ".."; ".."; "clhaskellelectric.com"; "dist"].

Definition constructor (this : Cdk.Stack) (props : StaticWebsiteStackProps)
  : Build unit :=
  bucket <- declare "SiteBucket"
              (Bucket (stageName props +:+ "-website-" +:+
                         Cdk.render (Cdk.stack_account this))
                 false true DESTROY true) ;;
  delegationRole <- declare "DelegationRole"
                      (RoleFromArn (delegationRoleArn props)) ;;
  oai <- declare "OAI"
           (OriginAccessIdentity ("OAI for " +:+ domainName props)) ;;
  grantRead bucket oai ;;;
  subdomainHostedZone <- declare "subdomainHostedZone"
                           (PublicHostedZone (domainName props) None) ;;
  certificate <-
    (if String.eqb (stageName props) "prod"
     then declare "WebsiteCertificate"
            (Certificate (domainName props) []
               (fromDns (Some subdomainHostedZone)))
     else declare "ImportedCertificate"
            (CertificateFromArn (certificateArn props))) ;;
  declare ("DelegationRecord-" +:+ stageName props)
    (CrossAccountZoneDelegationRecord delegationRole subdomainHostedZone
       (rootHostedZoneName props)) ;;;
  distribution <-
    declare "Distribution"
      (Distribution bucket "REDIRECT_TO_HTTPS" "CACHING_OPTIMIZED"
         (if String.eqb (stageName props) "prod"
          then [ "www." +:+ rootHostedZoneName props;
                 rootHostedZoneName props;
                 domainName props ]
          else [domainName props])
         certificate "index.html" []) ;;
  declare "AliasRecord"
    (ARecord subdomainHostedZone (domainName props) distribution) ;;;
  declare "WebsiteDeployment"
    (BucketDeployment websiteBuildPath bucket distribution ["/*"]) ;;;
  declare "DelegationRecord"
    (CfnOutput (Attribute subdomainHostedZone "hostedZoneId")
       "Subdomain Hosted Zone ID" None) ;;;
  declare "BucketName"
    (CfnOutput (Attribute bucket "bucketName") "S3 Bucket Name" None) ;;;
  declare "DistributionId"
    (CfnOutput (Attribute distribution "distributionId")
       "CloudFront Distribution ID" None) ;;;
  declare "DistributionDomainName"
    (CfnOutput (Attribute distribution "distributionDomainName")
       "CloudFront Distribution Domain Name" None) ;;;
  declare "WebsiteUrl"
    (CfnOutput (Literal ("https://" +:+ domainName props)) "Website URL" None) ;;;
  ret tt.

Definition new (stackId : string) (props : StaticWebsiteStackProps) : Synthesized :=
  let this := Cdk.new_Stack (base props) in
  {| stack := this;
     stackName := stackId;
     scope := snd (constructor this props Construct.empty) |}.

End ImportingStaticWebsiteStack.

(** ** Reading a static-website stack *)

Module Website.

(** The domain names on the stack's distribution and the id of the
    certificate bound to it. *)
Definition distribution (s : Synthesized) : option (list string * ref) :=
  match Construct.find (scope s) "Distribution" with
  | Some (Distribution _ _ _ names cert _ _) => Some (names, cert)
  | _ => None
  end.

Definition distributionDomainNames (s : Synthesized) : list string :=
  match distribution s with
  | Some (names, _) => names
  | None => []
  end.

(** The names a certificate construct declares: its domain name and its
    subject alternative names.  An imported certificate declares none in
    the graph. *)
Definition declaredNames (r : Resource) : option (list string) :=
  match r with
  | Certificate domain alternatives _ => Some (domain :: alternatives)
  | _ => None
  end.

(** The names covered by the certificate bound to the distribution. *)
Definition certificateNames (s : Synthesized) : option (list string) :=
  match distribution s with
  | Some (_, cert) =>
      match Construct.find (scope s) cert with
      | Some r => declaredNames r
      | None => None
      end
  | None => None
  end.

Definition included (name : string) (names : list string) : bool :=
  existsb (String.eqb name) names.

(** Every distribution name is among the certificate's names. *)
Definition covered (s : Synthesized) : bool :=
  match certificateNames s with
  | Some names =>
      forallb (fun n => included n names) (distributionDomainNames s)
  | None => false
  end.

(** The delegation records of a stack, with their ids. *)
Definition delegationRecords (s : Synthesized) : list Node :=
  List.filter (fun n => match resource n with
                   | CrossAccountZoneDelegationRecord _ _ _ => true
                   | _ => false
                   end) (children (scope s)).

End Website.


(** ** src/unnamed/part_001: the role GitHub Actions assumes *)

Module GitHubActionsRoleStack.

Record GitHubActionsRoleStackProps := {
  base : Cdk.StackProps;
  repoOwner : string;
  repoName : string;
  dnsAccountId : string;
  stage : string;
  additionalPolicies : option (list string);
}.

Definition subjectClaim (props : GitHubActionsRoleStackProps) : string :=
  "repo:" +:+ repoOwner props +:+ "/" +:+ repoName props +:+ ":*".

Definition assumedBy (githubProvider : ref) (props : GitHubActionsRoleStackProps)
  : Principal :=
  FederatedPrincipal
    (Attribute githubProvider "openIdConnectProviderArn")
    [ {| operator := "StringEquals";
         key := "token.actions.githubusercontent.com:aud";
         values := ["sts.amazonaws.com"] |};
      {| operator := "StringLike";
         key := "token.actions.githubusercontent.com:sub";
         values := [subjectClaim props] |} ]
    "sts:AssumeRoleWithWebIdentity".

Definition delegationRoleArn (props : GitHubActionsRoleStackProps) : Cdk.ArnComponents :=
  {| Cdk.arn_account := dnsAccountId props;
     Cdk.arn_region := EmptyString;
     Cdk.arn_resource := "role";
     Cdk.arn_resourceName := "CrossAccountDnsManagementRole-" +:+ stage props;
     Cdk.arn_service := "iam" |}.

(** [role.addManagedPolicy(p)] and [role.addToPolicy(st)] change the role
    that was declared before.  A managed policy the role already has is
    not attached a second time. *)
Definition addManagedPolicy (role : ref) (name : string) : Build unit :=
  Construct.update role
    (fun r => match r with
              | Role p =>
                  if existsb (String.eqb name) (managedPolicies p)
                  then Role p
                  else
                    Role {| roleName := roleName p;
                            Construct.assumedBy := Construct.assumedBy p;
                            inlinePolicies := inlinePolicies p;
                            description := description p;
                            maxSessionDurationHours := maxSessionDurationHours p;
                            managedPolicies := managedPolicies p ++ [name];
                            policy := policy p |}
              | other => other
              end).

Definition addToPolicy (role : ref) (st : PolicyStatement) : Build unit :=
  Construct.update role
    (fun r => match r with
              | Role p =>
                  Role {| roleName := roleName p;
                          Construct.assumedBy := Construct.assumedBy p;
                          inlinePolicies := inlinePolicies p;
                          description := description p;
                          maxSessionDurationHours := maxSessionDurationHours p;
                          managedPolicies := managedPolicies p;
                          policy := policy p ++ [st] |}
              | other => other
              end).

Definition constructor (stackId : string) (props : GitHubActionsRoleStackProps)
  : Build unit :=
  githubProvider <-
    declare "GitHubOIDCProvider"
      (OpenIdConnectProvider "https://token.actions.githubusercontent.com"
         ["sts.amazonaws.com"]) ;;
  role <-
    declare "GitHubActionsDeployRole"
      (Role {| roleName := "github-actions-" +:+ repoOwner props +:+ "-" +:+
                           repoName props +:+ "-role";
               Construct.assumedBy := assumedBy githubProvider props;
               inlinePolicies := [];
               description :=
                 Some ("Role for GitHub Actions to deploy CDK stacks from " +:+
                       repoOwner props +:+ "/" +:+ repoName props);
               maxSessionDurationHours := Some 1%nat;
               managedPolicies := [];
               policy := [] |}) ;;
  addManagedPolicy role "PowerUserAccess" ;;;
  addToPolicy role
    {| effect := ALLOW;
       actions :=
         [ "iam:CreateRole"; "iam:DeleteRole"; "iam:GetRole"; "iam:UpdateRole";
           "iam:PassRole"; "iam:AttachRolePolicy"; "iam:DetachRolePolicy";
           "iam:PutRolePolicy"; "iam:DeleteRolePolicy"; "iam:GetRolePolicy";
           "iam:TagRole"; "iam:UntagRole"; "iam:CreatePolicy"; "iam:DeletePolicy";
           "iam:GetPolicy"; "iam:GetPolicyVersion"; "iam:ListPolicyVersions";
           "iam:CreatePolicyVersion"; "iam:DeletePolicyVersion"; "iam:TagPolicy";
           "iam:UntagPolicy" ];
       resources := [Literal "*"];
       conditions := [] |} ;;;
  addToPolicy role
    {| effect := ALLOW;
       actions := ["sts:AssumeRole"];
       resources := [Arn (delegationRoleArn props)];
       conditions := [] |} ;;;
  match additionalPolicies props with
  | Some policies => for_of policies (fun p => addManagedPolicy role p)
  | None => ret tt
  end ;;;
  declare "RoleArn"
    (CfnOutput (Attribute role "roleArn")
       "ARN of the IAM role for GitHub Actions"
       (Some (stackId +:+ "-RoleArn"))) ;;;
  declare "RoleName"
    (CfnOutput (Attribute role "roleName")
       "Name of the IAM role for GitHub Actions" None) ;;;
  ret tt.

Definition new (stackId : string) (props : GitHubActionsRoleStackProps) : Synthesized :=
  {| stack := Cdk.new_Stack (base props);
     stackName := stackId;
     scope := snd (constructor stackId props Construct.empty) |}.

(** The trust policy of the deploy role of a scope and of a synthesized
    stack. *)
Definition trustOf (sc : Scope) : option Principal :=
  match Construct.find sc "GitHubActionsDeployRole" with
  | Some (Role p) => Some (Construct.assumedBy p)
  | _ => None
  end.

Definition trust (s : Synthesized) : option Principal := trustOf (scope s).

(** A step of a constructor that leaves the trust of the deploy role as
    it found it. *)
Definition keeps_trust {A : Type} (m : Build A) : Prop :=
  forall sc p, trustOf sc = Some p -> trustOf (snd (m sc)) = Some p.

End GitHubActionsRoleStack.

(** ** Evaluating a trust policy

    A web-identity request carries the action and the claims of the token,
    keyed as the provider keys them.  The trust of a federated principal
    lets the request through when the action is the principal's and every
    condition holds on the claims; an account principal is no web
    identity. *)

Module Trust.

Record Request := {
  action : string;
  claims : gmap string string;
}.

Definition holds (c : Condition) (r : Request) : bool :=
  match claims r !! key c with
  | Some actual =>
      if String.eqb (operator c) "StringEquals"
      then existsb (fun v => Iam.StringEquals v actual) (values c)
      else if String.eqb (operator c) "StringLike"
      then existsb (fun v => Iam.StringLike v actual) (values c)
      else false
  | None => false
  end.

Definition permits (p : Principal) (r : Request) : bool :=
  match p with
  | FederatedPrincipal _ conditions assumeRoleAction =>
      String.eqb (action r) assumeRoleAction && forallb (fun c => holds c r) conditions
  | AccountPrincipal _ => false
  end.

End Trust.


(** ** src/infra/bin/app.ts *)

Module App.

(** What the entry point reads: the CDK context and the environment. *)
Record Inputs := {
  context : gmap string string;
  environment : gmap string string;
}.

Definition tryGetContext (i : Inputs) (key : string) : Js.value := context i !! key.

Definition process_env (i : Inputs) (name : string) : Js.value := environment i !! name.

Record Config := {
  dnsAccount : Js.value;
  gammaAccount : Js.value;
  prodAccount : Js.value;
  domainName : Js.value;
  region : Js.value;
  repoOwner : Js.value;
  repoName : Js.value;
}.

Definition config (i : Inputs) : Config :=
  {| dnsAccount := Js.or (tryGetContext i "dnsAccount") (process_env i "DNS_ACCOUNT_ID");
     gammaAccount := Js.or (tryGetContext i "gammaAccount") (process_env i "GAMMA_ACCOUNT_ID");
     prodAccount := Js.or (tryGetContext i "prodAccount") (process_env i "PROD_ACCOUNT_ID");
     domainName := Js.or (tryGetContext i "domainName") (process_env i "DOMAIN_NAME");
     region := Js.or (tryGetContext i "region") (Some "us-east-1");
     repoOwner := Js.or (tryGetContext i "repoOwner") (process_env i "GITHUB_REPOSITORY_OWNER");
     repoName := Js.or (tryGetContext i "repoName") (process_env i "REPO_NAME") |}.

(** [config[field as keyof typeof config]] *)
Definition get (c : Config) (field : string) : Js.value :=
  if String.eqb field "dnsAccount" then dnsAccount c
  else if String.eqb field "gammaAccount" then gammaAccount c
  else if String.eqb field "prodAccount" then prodAccount c
  else if String.eqb field "domainName" then domainName c
  else if String.eqb field "region" then region c
  else if String.eqb field "repoOwner" then repoOwner c
  else if String.eqb field "repoName" then repoName c
  else None.

Definition requiredEnvironmentVars : list string :=
  ["dnsAccount"; "gammaAccount"; "prodAccount"; "domainName"; "repoOwner"; "repoName"].

(** The message of the error thrown for a field without a value. *)
Definition missing (field : string) : string :=
  ("Missing required configuration: " +:+ field +:+ ". ") +:+
  ("Set via --context " +:+ field +:+ "=value or environment variable " +:+
   Js.toUpperCase field).

(** The props object the entry point gives to [GitHubActionsRoleStack]. *)
Record RoleStackProps := {
  role_base : Cdk.StackProps;
  role_repoOwner : string;
  role_repoName : string;
}.

(** [new Stack(app, id, props)], as the entry point writes it. *)
Inductive StackDecl :=
| NewDnsStack (id : string) (props : DnsStack.DnsStackProps)
| NewStaticWebsiteStack (id : string) (props : StaticWebsiteStack.StaticWebsiteStackProps)
| NewGitHubActionsRoleStack (id : string) (props : RoleStackProps).

Inductive Outcome (A : Type) :=
| Returned (a : A)
| Thrown (message : string).

Arguments Returned {A} a.
Arguments Thrown {A} message.

(** The entry point runs over the stacks instantiated so far and stops at
    the first throw. *)
Definition Run (A : Type) : Type := list StackDecl -> Outcome A * list StackDecl.

#[global] Instance Run_Sequenced : Sequenced Run := {|
  ret := fun A (a : A) st => (Returned a, st);
  bind := fun A B (m : Run A) (k : A -> Run B) st =>
            match m st with
            | (Returned a, st') => k a st'
            | (Thrown message, st') => (Thrown message, st')
            end;
|}.

Definition throw {A : Type} (message : string) : Run A :=
  fun st => (Thrown message, st).

(** What the library answers to [new XStack(app, id, props)]: the message
    of the error the constructor throws, if it throws.  The constructors
    hand the names they compute to the library's constructs, which
    validate them; that code is no part of these sources, so the answer is
    a parameter of the entry points. *)
Definition Library : Type := StackDecl -> option string.

(** [new XStack(app, id, props)]: the stack joins the application unless
    its constructor throws. *)
Definition instantiate (library : Library) (d : StackDecl) : Run unit :=
  fun st =>
    match library d with
    | Some message => (Thrown message, st)
    | None => (Returned tt, st ++ [d])
    end.

(** A configuration value used where a string is expected.  The
    validation loop has thrown before [undefined] can reach such a place. *)
Definition str (v : Js.value) : string := Js.interpolate v.

Definition envOf (account region : Js.value) : Cdk.StackProps :=
  {| Cdk.env := Some {| Cdk.account := account; Cdk.region := region |};
     Cdk.description := None |}.

Definition validate (config : Config) : Run unit :=
  for_of requiredEnvironmentVars
    (fun field =>
       if negb (Js.truthy (get config field))
       then throw (missing field)
       else ret tt).

Definition stageAccounts (config : Config) : Js.record :=
  [("gamma", str (gammaAccount config)); ("prod", str (prodAccount config))].

Definition stages : list string := ["Gamma"; "Prod"].

(** The props object given to [StaticWebsiteStack] for a stage. *)
Definition websiteProps (config : Config) (stageName : string)
  : StaticWebsiteStack.StaticWebsiteStackProps :=
  {| StaticWebsiteStack.base :=
       envOf (Js.index (stageAccounts config) stageName) (region config);
     StaticWebsiteStack.dnsAccountId := str (dnsAccount config);
     StaticWebsiteStack.rootHostedZoneName := str (domainName config);
     StaticWebsiteStack.domainName :=
       stageName +:+ "." +:+ str (domainName config);
     StaticWebsiteStack.stageName := stageName |}.

Definition main (library : Library) (i : Inputs) : Run unit :=
  let config := config i in
  validate config ;;;
  instantiate library
    (NewDnsStack "DnsStack"
       {| DnsStack.base := envOf (dnsAccount config) (region config);
          DnsStack.domainName := str (domainName config);
          DnsStack.trustedAccounts := stageAccounts config |}) ;;;
  for_of stages
    (fun stage =>
       let stageName := Js.toLowerCase stage in
       instantiate library
         (NewStaticWebsiteStack (stage +:+ "StaticWebsiteStack")
            (websiteProps config stageName)) ;;;
       instantiate library
         (NewGitHubActionsRoleStack (stage +:+ "GitHubActionsRole")
            {| role_base :=
                 envOf (Js.index (stageAccounts config) stageName) (region config);
               role_repoOwner := str (repoOwner config);
               role_repoName := str (repoName config) |})).

(** Running the entry point from an empty application. *)
Definition run (library : Library) (i : Inputs) : Outcome unit * list StackDecl :=
  main library i [].

(** The constructor calls of the entry point, in the order it makes
    them. *)
Definition calls (config : Config) : list StackDecl :=
  NewDnsStack "DnsStack"
    {| DnsStack.base := envOf (dnsAccount config) (region config);
       DnsStack.domainName := str (domainName config);
       DnsStack.trustedAccounts := stageAccounts config |} ::
  flat_map
    (fun stage =>
       let stageName := Js.toLowerCase stage in
       [ NewStaticWebsiteStack (stage +:+ "StaticWebsiteStack")
           (websiteProps config stageName);
         NewGitHubActionsRoleStack (stage +:+ "GitHubActionsRole")
           {| role_base :=
                envOf (Js.index (stageAccounts config) stageName) (region config);
              role_repoOwner := str (repoOwner config);
              role_repoName := str (repoName config) |} ])
    stages.

(** What is left of a run of constructor calls: the stacks built before
    the first call the library rejects, and that call's error. *)
Fixpoint construct (library : Library) (ds : list StackDecl)
  : Outcome unit * list StackDecl :=
  match ds with
  | [] => (Returned tt, [])
  | d :: rest =>
      match library d with
      | Some message => (Thrown message, [])
      | None => (fst (construct library rest), d :: snd (construct library rest))
      end
  end.

(** The library builds every one of these stacks. *)
Definition accepted (library : Library) (ds : list StackDecl) : Prop :=
  forall d, In d ds -> library d = None.

Definition declId (d : StackDecl) : string :=
  match d with
  | NewDnsStack id _ => id
  | NewStaticWebsiteStack id _ => id
  | NewGitHubActionsRoleStack id _ => id
  end.

(** The environment variable that backs each required context key in the
    configuration object. *)
Definition environmentVariables : Js.record :=
  [ ("dnsAccount", "DNS_ACCOUNT_ID");
    ("gammaAccount", "GAMMA_ACCOUNT_ID");
    ("prodAccount", "PROD_ACCOUNT_ID");
    ("domainName", "DOMAIN_NAME");
    ("repoOwner", "GITHUB_REPOSITORY_OWNER");
    ("repoName", "REPO_NAME") ].

(** What the environment holds for a field. *)
Definition fromEnvironment (i : Inputs) (field : string) : Js.value :=
  match Js.index environmentVariables field with
  | Some name => process_env i name
  | None => None
  end.


(** The field at which the validation loop stops, if it stops. *)
Definition firstMissing (c : Config) : option string :=
  List.find (fun field => negb (Js.truthy (get c field))) requiredEnvironmentVars.


(** The static-website stacks among instantiated stacks, synthesized. *)
Definition websites (stacks : list StackDecl)
  : list (StaticWebsiteStack.StaticWebsiteStackProps * Synthesized) :=
  flat_map (fun d => match d with
                     | NewStaticWebsiteStack id props =>
                         [(props, StaticWebsiteStack.new id props)]
                     | _ => []
                     end) stacks.

End App.

(** ** src/unnamed/part_003: the entry point that names each stack

    Its configuration object, required fields and validation loop are the
    ones of [App], line by line. *)

Module NamedApp.

Import App.

Definition main (library : Library) (i : Inputs) : Run unit :=
  let config := config i in
  validate config ;;;
  instantiate library
    (NewDnsStack "DnsStack"
       {| DnsStack.base := envOf (dnsAccount config) (region config);
          DnsStack.domainName := str (domainName config);
          DnsStack.trustedAccounts :=
            [("gamma", str (gammaAccount config)); ("prod", str (prodAccount config))] |}) ;;;
  instantiate library
    (NewStaticWebsiteStack "GammaStaticWebsiteStack"
       {| StaticWebsiteStack.base := envOf (gammaAccount config) (region config);
          StaticWebsiteStack.dnsAccountId := str (dnsAccount config);
          StaticWebsiteStack.rootHostedZoneName := str (domainName config);
          StaticWebsiteStack.domainName := "gamma." +:+ str (domainName config);
          StaticWebsiteStack.stageName := "gamma" |}) ;;;
  instantiate library
    (NewStaticWebsiteStack "ProdStaticWebsiteStack"
       {| StaticWebsiteStack.base := envOf (prodAccount config) (region config);
          StaticWebsiteStack.dnsAccountId := str (dnsAccount config);
          StaticWebsiteStack.rootHostedZoneName := str (domainName config);
          StaticWebsiteStack.domainName := "prod." +:+ str (domainName config);
          StaticWebsiteStack.stageName := "prod" |}) ;;;
  instantiate library
    (NewGitHubActionsRoleStack "GammaGitHubActionsRole"
       {| role_base := envOf (gammaAccount config) (region config);
          role_repoOwner := str (repoOwner config);
          role_repoName := str (repoName config) |}) ;;;
  instantiate library
    (NewGitHubActionsRoleStack "ProdGitHubActionsRole"
       {| role_base := envOf (prodAccount config) (region config);
          role_repoOwner := str (repoOwner config);
          role_repoName := str (repoName config) |}).

Definition run (library : Library) (i : Inputs) : Outcome unit * list StackDecl :=
  main library i [].

(** The constructor calls of this entry point, in the order it makes
    them. *)
Definition calls (config : Config) : list StackDecl :=
  [ NewDnsStack "DnsStack"
      {| DnsStack.base := envOf (dnsAccount config) (region config);
         DnsStack.domainName := str (domainName config);
         DnsStack.trustedAccounts :=
           [("gamma", str (gammaAccount config)); ("prod", str (prodAccount config))] |};
    NewStaticWebsiteStack "GammaStaticWebsiteStack"
      {| StaticWebsiteStack.base := envOf (gammaAccount config) (region config);
         StaticWebsiteStack.dnsAccountId := str (dnsAccount config);
         StaticWebsiteStack.rootHostedZoneName := str (domainName config);
         StaticWebsiteStack.domainName := "gamma." +:+ str (domainName config);
         StaticWebsiteStack.stageName := "gamma" |};
    NewStaticWebsiteStack "ProdStaticWebsiteStack"
      {| StaticWebsiteStack.base := envOf (prodAccount config) (region config);
         StaticWebsiteStack.dnsAccountId := str (dnsAccount config);
         StaticWebsiteStack.rootHostedZoneName := str (domainName config);
         StaticWebsiteStack.domainName := "prod." +:+ str (domainName config);
         StaticWebsiteStack.stageName := "prod" |};
    NewGitHubActionsRoleStack "GammaGitHubActionsRole"
      {| role_base := envOf (gammaAccount config) (region config);
         role_repoOwner := str (repoOwner config);
         role_repoName := str (repoName config) |};
    NewGitHubActionsRoleStack "ProdGitHubActionsRole"
      {| role_base := envOf (prodAccount config) (region config);
         role_repoOwner := str (repoOwner config);
         role_repoName := str (repoName config) |} ].

End NamedApp.


(** ** Evaluation orders of a declaration graph

    The engine creates the constructs of a scope one after the other, each
    once, and never a dependent before what it depends on. *)

Module Order.

(** The place of a construct in an order. *)
Fixpoint position (x : string) (order : list string) : option nat :=
  match order with
  | [] => None
  | y :: rest =>
      if String.eqb y x then Some 0
      else S <$> position x rest
  end.

Definition before (x y : string) (order : list string) : Prop :=
  exists i j, position x order = Some i /\ position y order = Some j /\ i < j.

Definition respects (edges : list (ref * ref)) (order : list string) : Prop :=
  forall dependent on, In (dependent, on) edges -> before on dependent order.

Definition evaluation (sc : Scope) (order : list string) : Prop :=
  Permutation (Construct.ids sc) order /\ respects (dependencies sc) order.

End Order.


(** ** Concrete deployments *)

Module Example.

Definition dns_example : DnsStack.DnsStackProps :=
  {| DnsStack.base := {| Cdk.env := None; Cdk.description := None |};
     DnsStack.domainName := "example.com";
     DnsStack.trustedAccounts := [("gamma", "222222222222"); ("prod", "333333333333")] |}.

Definition overlapping_example : DnsStack.DnsStackProps :=
  {| DnsStack.base := {| Cdk.env := None; Cdk.description := None |};
     DnsStack.domainName := "example.com";
     DnsStack.trustedAccounts := [("prod", "333333333333"); ("preprod", "444444444444")] |}.

Definition gamma_site : StaticWebsiteStack.StaticWebsiteStackProps :=
  {| StaticWebsiteStack.base :=
       {| Cdk.env := Some {| Cdk.account := Some "222222222222";
                             Cdk.region := Some "us-east-1" |};
          Cdk.description := None |};
     StaticWebsiteStack.dnsAccountId := "111111111111";
     StaticWebsiteStack.rootHostedZoneName := "example.com";
     StaticWebsiteStack.domainName := "gamma.example.com";
     StaticWebsiteStack.stageName := "gamma" |}.

Definition prod_site : StaticWebsiteStack.StaticWebsiteStackProps :=
  {| StaticWebsiteStack.base :=
       {| Cdk.env := Some {| Cdk.account := Some "333333333333";
                             Cdk.region := Some "us-east-1" |};
          Cdk.description := None |};
     StaticWebsiteStack.dnsAccountId := "111111111111";
     StaticWebsiteStack.rootHostedZoneName := "example.com";
     StaticWebsiteStack.domainName := "prod.example.com";
     StaticWebsiteStack.stageName := "prod" |}.

Definition role_props : GitHubActionsRoleStack.GitHubActionsRoleStackProps :=
  {| GitHubActionsRoleStack.base :=
       {| Cdk.env := Some {| Cdk.account := Some "222222222222";
                             Cdk.region := Some "us-east-1" |};
          Cdk.description := None |};
     GitHubActionsRoleStack.repoOwner := "colbychaskell";
     GitHubActionsRoleStack.repoName := "clhaskell";
     GitHubActionsRoleStack.dnsAccountId := "111111111111";
     GitHubActionsRoleStack.stage := "gamma";
     GitHubActionsRoleStack.additionalPolicies := None |}.

(** A context and an environment that give every required field. *)
Definition inputs : App.Inputs :=
  {| App.context := {[ "domainName" := "example.com" ]};
     App.environment :=
       {[ "DNS_ACCOUNT_ID" := "111111111111";
          "GAMMA_ACCOUNT_ID" := "222222222222";
          "PROD_ACCOUNT_ID" := "333333333333";
          "GITHUB_REPOSITORY_OWNER" := "colbychaskell";
          "REPO_NAME" := "clhaskell" ]} |}.

(** The same without the domain name. *)
Definition inputs_without_domain : App.Inputs :=
  {| App.context := ∅;
     App.environment :=
       {[ "DNS_ACCOUNT_ID" := "111111111111";
          "GAMMA_ACCOUNT_ID" := "222222222222";
          "PROD_ACCOUNT_ID" := "333333333333";
          "GITHUB_REPOSITORY_OWNER" := "colbychaskell";
          "REPO_NAME" := "clhaskell" ]} |}.

End Example.

(** ** References between the constructs of a scope *)

Module Graph.

Definition tokenRefs (t : token) : list ref :=
  match t with
  | Attribute owner _ => [owner]
  | _ => []
  end.

Definition statementRefs (st : PolicyStatement) : list ref :=
  flat_map tokenRefs (resources st).

Definition principalRefs (p : Principal) : list ref :=
  match p with
  | FederatedPrincipal federated _ _ => tokenRefs federated
  | AccountPrincipal _ => []
  end.

(** The constructs of its scope that a resource's props hold. *)
Definition refs (r : Resource) : list ref :=
  match r with
  | Role p =>
      principalRefs (Construct.assumedBy p) ++
      flat_map statementRefs (flat_map snd (inlinePolicies p)) ++
      flat_map statementRefs (policy p)
  | Certificate _ _ (fromDns (Some zone)) => [zone]
  | CrossAccountZoneDelegationRecord role zone _ => [role; zone]
  | Distribution bucket _ _ _ cert _ _ => [bucket; cert]
  | ARecord zone _ target => [zone; target]
  | BucketDeployment _ bucket dist _ => [bucket; dist]
  | CfnOutput v _ _ => tokenRefs v
  | _ => []
  end.

Definition known (seen : list string) (r : ref) : bool :=
  existsb (String.eqb r) seen.

(** Every construct refers only to constructs declared before it, where
    [seen] are the ids declared so far. *)
Fixpoint declaredBeforeUse (seen : list string) (nodes : list Node) : bool :=
  match nodes with
  | [] => true
  | n :: rest =>
      forallb (known seen) (refs (resource n)) &&
      declaredBeforeUse (id n :: seen) rest
  end.

(** A scope whose constructs refer backwards only and whose dependency
    edges and grants join declared constructs. *)
Definition closed (sc : Scope) : bool :=
  declaredBeforeUse [] (children sc) &&
  forallb (fun e => known (Construct.ids sc) (fst e) && known (Construct.ids sc) (snd e))
          (dependencies sc ++ grants sc).

End Graph.

(** ** src/unnamed/part_002: the entry point without a DNS stack, whose
       role stacks take an organisation and a branch *)

Module OrgApp.

Record Config := {
  dnsAccount : Js.value;
  gammaAccount : Js.value;
  prodAccount : Js.value;
  domainName : Js.value;
  region : Js.value;
  repoOrg : Js.value;
  repoName : Js.value;
}.

Definition config (i : App.Inputs) : Config :=
  {| dnsAccount :=
       Js.or (App.tryGetContext i "dnsAccount") (App.process_env i "DNS_ACCOUNT_ID");
     gammaAccount :=
       Js.or (App.tryGetContext i "gammaAccount") (App.process_env i "GAMMA_ACCOUNT_ID");
     prodAccount :=
       Js.or (App.tryGetContext i "prodAccount") (App.process_env i "PROD_ACCOUNT_ID");
     domainName :=
       Js.or (App.tryGetContext i "domainName") (App.process_env i "DOMAIN_NAME");
     region := Js.or (App.tryGetContext i "region") (Some "us-east-1");
     repoOrg := Js.or (App.tryGetContext i "repoOrg") (App.process_env i "REPO_ORG");
     repoName := Js.or (App.tryGetContext i "repoName") (App.process_env i "REPO_NAME") |}.

Definition get (c : Config) (field : string) : Js.value :=
  if String.eqb field "dnsAccount" then dnsAccount c
  else if String.eqb field "gammaAccount" then gammaAccount c
  else if String.eqb field "prodAccount" then prodAccount c
  else if String.eqb field "domainName" then domainName c
  else if String.eqb field "region" then region c
  else if String.eqb field "repoOrg" then repoOrg c
  else if String.eqb field "repoName" then repoName c
  else None.

Definition requiredFields : list string :=
  ["dnsAccount"; "gammaAccount"; "prodAccount"; "domainName"; "repoOrg"; "repoName"].

(** The props object this entry point gives to [GitHubActionsRoleStack]. *)
Record RoleStackProps := {
  role_base : Cdk.StackProps;
  role_repoOrg : string;
  role_repoName : string;
  role_githubBranch : string;
}.

Inductive StackDecl :=
| NewStaticWebsiteStack (id : string) (props : StaticWebsiteStack.StaticWebsiteStackProps)
| NewGitHubActionsRoleStack (id : string) (props : RoleStackProps).

Definition Run (A : Type) : Type :=
  list StackDecl -> App.Outcome A * list StackDecl.

#[global] Instance Run_Sequenced : Sequenced Run := {|
  ret := fun A (a : A) st => (App.Returned a, st);
  bind := fun A B (m : Run A) (k : A -> Run B) st =>
            match m st with
            | (App.Returned a, st') => k a st'
            | (App.Thrown message, st') => (App.Thrown message, st')
            end;
|}.

Definition throw {A : Type} (message : string) : Run A :=
  fun st => (App.Thrown message, st).

(** The library's answer to a constructor call, as in [App]. *)
Definition Library : Type := StackDecl -> option string.

Definition instantiate (library : Library) (d : StackDecl) : Run unit :=
  fun st =>
    match library d with
    | Some message => (App.Thrown message, st)
    | None => (App.Returned tt, st ++ [d])
    end.

(** The loop over [requiredFields]; the message is the one of [App]. *)
Definition validate (config : Config) : Run unit :=
  for_of requiredFields
    (fun field =>
       if negb (Js.truthy (get config field))
       then throw (App.missing field)
       else ret tt).

Definition main (library : Library) (i : App.Inputs) : Run unit :=
  let config := config i in
  validate config ;;;
  instantiate library
    (NewStaticWebsiteStack "GammaStaticWebsiteStack"
       {| StaticWebsiteStack.base := App.envOf (gammaAccount config) (region config);
          StaticWebsiteStack.dnsAccountId := App.str (dnsAccount config);
          StaticWebsiteStack.rootHostedZoneName := App.str (domainName config);
          StaticWebsiteStack.domainName := "gamma." +:+ App.str (domainName config);
          StaticWebsiteStack.stageName := "gamma" |}) ;;;
  instantiate library
    (NewStaticWebsiteStack "ProdStaticWebsiteStack"
       {| StaticWebsiteStack.base := App.envOf (prodAccount config) (region config);
          StaticWebsiteStack.dnsAccountId := App.str (dnsAccount config);
          StaticWebsiteStack.rootHostedZoneName := App.str (domainName config);
          StaticWebsiteStack.domainName := "prod." +:+ App.str (domainName config);
          StaticWebsiteStack.stageName := "prod" |}) ;;;
  instantiate library
    (NewGitHubActionsRoleStack "GammaGitHubActionsRole"
       {| role_base := App.envOf (gammaAccount config) (region config);
          role_repoOrg := "colbychaskell";
          role_repoName := "clhaskell-cdk";
          role_githubBranch := "main" |}) ;;;
  instantiate library
    (NewGitHubActionsRoleStack "ProdGitHubActionsRole"
       {| role_base := App.envOf (prodAccount config) (region config);
          role_repoOrg := App.str (repoOrg config);
          role_repoName := App.str (repoName config);
          role_githubBranch := "main" |}).

Definition run (library : Library) (i : App.Inputs)
  : App.Outcome unit * list StackDecl :=
  main library i [].

(** The constructor calls of this entry point, in the order it makes
    them. *)
Definition calls (config : Config) : list StackDecl :=
  [ NewStaticWebsiteStack "GammaStaticWebsiteStack"
      {| StaticWebsiteStack.base := App.envOf (gammaAccount config) (region config);
         StaticWebsiteStack.dnsAccountId := App.str (dnsAccount config);
         StaticWebsiteStack.rootHostedZoneName := App.str (domainName config);
         StaticWebsiteStack.domainName := "gamma." +:+ App.str (domainName config);
         StaticWebsiteStack.stageName := "gamma" |};
    NewStaticWebsiteStack "ProdStaticWebsiteStack"
      {| StaticWebsiteStack.base := App.envOf (prodAccount config) (region config);
         StaticWebsiteStack.dnsAccountId := App.str (dnsAccount config);
         StaticWebsiteStack.rootHostedZoneName := App.str (domainName config);
         StaticWebsiteStack.domainName := "prod." +:+ App.str (domainName config);
         StaticWebsiteStack.stageName := "prod" |};
    NewGitHubActionsRoleStack "GammaGitHubActionsRole"
      {| role_base := App.envOf (gammaAccount config) (region config);
         role_repoOrg := "colbychaskell";
         role_repoName := "clhaskell-cdk";
         role_githubBranch := "main" |};
    NewGitHubActionsRoleStack "ProdGitHubActionsRole"
      {| role_base := App.envOf (prodAccount config) (region config);
         role_repoOrg := App.str (repoOrg config);
         role_repoName := App.str (repoName config);
         role_githubBranch := "main" |} ].

Fixpoint construct (library : Library) (ds : list StackDecl)
  : App.Outcome unit * list StackDecl :=
  match ds with
  | [] => (App.Returned tt, [])
  | d :: rest =>
      match library d with
      | Some message => (App.Thrown message, [])
      | None => (fst (construct library rest), d :: snd (construct library rest))
      end
  end.

(** The first required field without a value. *)
Definition firstMissing (c : Config) : option string :=
  List.find (fun field => negb (Js.truthy (get c field))) requiredFields.

End OrgApp.

(** ** Reading the stacks of a deployment *)

Module Deployment.

(** The environment a stack is instantiated with. *)
Definition baseOf (d : App.StackDecl) : Cdk.StackProps :=
  match d with
  | App.NewDnsStack _ props => DnsStack.base props
  | App.NewStaticWebsiteStack _ props => StaticWebsiteStack.base props
  | App.NewGitHubActionsRoleStack _ props => App.role_base props
  end.

Definition accountOf (d : App.StackDecl) : Js.value :=
  Cdk.env_field Cdk.account (baseOf d).

Definition regionOf (d : App.StackDecl) : Js.value :=
  Cdk.env_field Cdk.region (baseOf d).

(** The props of the DNS stack of a deployment. *)
Definition dns (stacks : list App.StackDecl) : option DnsStack.DnsStackProps :=
  match stacks with
  | App.NewDnsStack _ props :: _ => Some props
  | _ => None
  end.

(** The constructs the loop of the DNS stack declares for one entry of
    [trustedAccounts]: the role and the output of its ARN. *)
Definition stageConstructs (stackId domain : string) (entry : string * string)
  : list Node :=
  [ {| id := "CrossAccountDnsManagementRole-" +:+ fst entry;
       resource :=
         Role (DnsStack.crossAccountRole "RootHostedZone" domain (fst entry) (snd entry)) |};
    {| id := "CrossAccountRoleArn-" +:+ fst entry;
       resource :=
         CfnOutput (Attribute ("CrossAccountDnsManagementRole-" +:+ fst entry) "roleArn")
           "ARN of the cross-account DNS management role"
           (Some (stackId +:+ "-CrossAccountRoleArn-" +:+ fst entry)) |} ].

(** The inputs with one more environment variable. *)
Definition setenv (name value : string) (i : App.Inputs) : App.Inputs :=
  {| App.context := App.context i;
     App.environment := <[name := value]> (App.environment i) |}.

(** The name of the bucket a website stack declares. *)
Definition bucketName (s : Synthesized) : option string :=
  match Construct.find (scope s) "SiteBucket" with
  | Some (Bucket name _ _ _ _) => Some name
  | _ => None
  end.

End Deployment.

(** ** A library that validates bucket names

    One of the checks the constructs of the library make on what the
    constructors give them: the name of a bucket, when it holds no
    deploy-time token, has 3 to 63 characters, each a lowercase letter, a
    digit, a dot or a hyphen. *)

Module Checks.

Definition bucketNameCharacter (c : ascii) : bool :=
  let n := nat_of_ascii c in
  (Nat.leb 97 n && Nat.leb n 122) || (Nat.leb 48 n && Nat.leb n 57) ||
  Nat.eqb n 46 || Nat.eqb n 45.

Fixpoint every (p : ascii -> bool) (s : string) : bool :=
  match s with
  | EmptyString => true
  | String c s' => p c && every p s'
  end.

Definition validBucketName (name : string) : bool :=
  Nat.leb 3 (String.length name) && Nat.leb (String.length name) 63 &&
  every bucketNameCharacter name.

(** The library that makes this check when a website stack is
    instantiated in a given account, and no other; the message is the
    first line of the library's. *)
Definition library : App.Library :=
  fun d =>
    match d with
    | App.NewStaticWebsiteStack stackId props =>
        match Cdk.stack_account (Cdk.new_Stack (StaticWebsiteStack.base props)),
              Deployment.bucketName (StaticWebsiteStack.new stackId props) with
        | Cdk.Concrete _, Some name =>
            if validBucketName name then None
            else Some ("Invalid S3 bucket name (value: " +:+ name +:+ ")")
        | _, _ => None
        end
    | _ => None
    end.

(** The same for the entry point of part_002. *)
Definition orgLibrary : OrgApp.Library :=
  fun d =>
    match d with
    | OrgApp.NewStaticWebsiteStack stackId props =>
        library (App.NewStaticWebsiteStack stackId props)
    | _ => None
    end.

End Checks.

(** ** More concrete inputs *)

Module Sample.

(** Every required field twice: in the context and, differently, in the
    environment. *)
Definition both : App.Inputs :=
  {| App.context :=
       {[ "dnsAccount" := "111111111111";
          "gammaAccount" := "222222222222";
          "prodAccount" := "333333333333";
          "domainName" := "example.com";
          "repoOwner" := "colbychaskell";
          "repoOrg" := "colbychaskell";
          "repoName" := "clhaskell" ]};
     App.environment :=
       {[ "DNS_ACCOUNT_ID" := "999999999999";
          "DOMAIN_NAME" := "example.org" ]} |}.

Definition gamma_prod : Js.record :=
  [("gamma", "222222222222"); ("prod", "333333333333")].



End Sample.

(** ** Facts about strings *)

Section Strings.

Lemma append_nil_l (s : string) : EmptyString +:+ s = s.
Proof. reflexivity. Qed.

Lemma append_cons (c : ascii) (s t : string) :
  String c s +:+ t = String c (s +:+ t).
Proof. reflexivity. Qed.

Lemma append_nil_r (s : string) : s +:+ EmptyString = s.
Proof. induction s as [|c s IH]; [reflexivity | now rewrite append_cons, IH]. Qed.

Lemma append_assoc (a b c : string) : (a +:+ b) +:+ c = a +:+ (b +:+ c).
Proof. induction a as [|x a IH]; [reflexivity | now rewrite !append_cons, IH]. Qed.

Lemma length_append (a b : string) :
  String.length (a +:+ b) = String.length a + String.length b.
Proof.
  induction a as [|x a IH]; [reflexivity|].
  rewrite append_cons. cbn [String.length]. now rewrite IH.
Qed.

Lemma append_cancel_r (a b c : string) : a +:+ c = b +:+ c -> a = b.
Proof.
  revert b. induction a as [|x a IH]; intros [|y b] E; rewrite ?append_cons, ?append_nil_l in E.
  - reflexivity.
  - apply (f_equal String.length) in E. cbn [String.length] in E.
    rewrite length_append in E. lia.
  - apply (f_equal String.length) in E. cbn [String.length] in E.
    rewrite length_append in E. lia.
  - injection E as -> E. now rewrite (IH b E).
Qed.

End Strings.

Lemma suffix_refl (t : string) : Js.ends_with t t.
Proof. now exists EmptyString. Qed.

Lemma suffix_comparable (a b r : string) :
  Js.ends_with a r -> Js.ends_with b r -> Js.ends_with a b \/ Js.ends_with b a.
Proof.
  intros [u Hu] [v Hv]. subst r. revert v Hv.
  induction u as [|c u IH]; intros v Hv; rewrite ?append_cons, ?append_nil_l in Hv.
  - right. now exists v.
  - destruct v as [|c' v]; rewrite ?append_cons, ?append_nil_l in Hv.
    + left. exists (String c u). now rewrite <- Hv.
    + injection Hv as _ Hv. now apply (IH v).
Qed.

Lemma suffix_cancel (a b c : string) :
  Js.ends_with (a +:+ c) (b +:+ c) -> Js.ends_with a b.
Proof.
  intros [u Hu]. exists u. rewrite <- append_assoc in Hu.
  now apply append_cancel_r in Hu.
Qed.

(** ** Facts about [StringLike] *)

Lemma literal_append (a b : string) :
  Iam.literal (a +:+ b) = Iam.literal a && Iam.literal b.
Proof.
  induction a as [|c a IH]; [reflexivity|]. rewrite append_cons. cbn [Iam.literal].
  rewrite IH. now rewrite andb_assoc.
Qed.

Lemma StringLike_star (t r : string) :
  Iam.StringLike (String "*" t) r =
  Iam.StringLike t r ||
  match r with
  | EmptyString => false
  | String _ r' => Iam.StringLike (String "*" t) r'
  end.
Proof. destruct r; reflexivity. Qed.

Lemma StringLike_literal (t r : string) :
  Iam.literal t = true -> (Iam.StringLike t r = true <-> r = t).
Proof.
  revert r. induction t as [|c t IH]; intros r L.
  - cbn. apply String.eqb_eq.
  - cbn [Iam.literal] in L. apply andb_true_iff in L as [L Lt].
    apply andb_true_iff in L as [L1 L2].
    apply negb_true_iff in L1, L2.
    cbn [Iam.StringLike]. rewrite L1.
    destruct r as [|d r]; [split; discriminate|].
    rewrite L2. cbn [orb]. rewrite andb_true_iff, Ascii.eqb_eq, (IH r Lt).
    split; [intros [-> ->]; reflexivity | intros E; injection E as -> ->; auto].
Qed.

Lemma StringLike_suffix (t r : string) :
  Iam.literal t = true ->
  (Iam.StringLike ("*" +:+ t) r = true <-> Js.ends_with t r).
Proof.
  intros L. change ("*" +:+ t) with (String "*" t).
  induction r as [|c r IH]; rewrite StringLike_star, orb_true_iff, (StringLike_literal _ _ L).
  - split.
    + intros [E | E]; [subst; apply suffix_refl | discriminate].
    + intros [u E]. left. destruct u; rewrite ?append_cons, ?append_nil_l in E; [exact E | discriminate].
  - rewrite IH. split.
    + intros [E | [u E]]; [rewrite E; apply suffix_refl|].
      exists (String c u). now rewrite append_cons, E.
    + intros [[|c' u] E]; rewrite ?append_cons, ?append_nil_l in E; [now left|].
      right. injection E as _ E. now exists u.
Qed.

(** ** The DNS stack's roles *)

Section DnsRoles.

Variable stackId : string.
Variable domain : string.

Let body (entry : string * string) : Build unit :=
  crossAccountRole <-
    declare ("CrossAccountDnsManagementRole-" +:+ fst entry)
      (Role (DnsStack.crossAccountRole "RootHostedZone" domain (fst entry) (snd entry))) ;;
  declare ("CrossAccountRoleArn-" +:+ fst entry)
    (CfnOutput (Attribute crossAccountRole "roleArn")
       "ARN of the cross-account DNS management role"
       (Some (stackId +:+ "-CrossAccountRoleArn-" +:+ fst entry))) ;;;
  ret tt.

Lemma build_bind {A B : Type} (m : Build A) (k : A -> Build B) (sc : Scope) :
  bind m k sc = k (fst (m sc)) (snd (m sc)).
Proof. cbn. now destruct (m sc). Qed.

Lemma rolesOf_app (l1 l2 : list Node) :
  rolesOf (l1 ++ l2) = rolesOf l1 ++ rolesOf l2.
Proof. unfold rolesOf. apply flat_map_app. Qed.

Lemma loop_roles (entries : list (string * string)) (sc : Scope) :
  rolesOf (children (snd (for_of entries body sc))) =
  rolesOf (children sc) ++
  map (fun e => DnsStack.crossAccountRole "RootHostedZone" domain (fst e) (snd e)) entries.
Proof.
  revert sc. induction entries as [|e entries IH]; intros sc.
  - cbn. now rewrite app_nil_r.
  - cbn [for_of]. unfold bind at 1. cbn [Build_Sequenced].
    destruct (body e sc) as [u sc'] eqn:E.
    rewrite IH. unfold body in E. cbn in E. injection E as _ <-.
    cbn [children]. rewrite !rolesOf_app. cbn. now rewrite app_nil_r, <- app_assoc.
Qed.

End DnsRoles.

Lemma DnsStack_roles (stackId : string) (props : DnsStack.DnsStackProps) :
  DnsStack.roles (DnsStack.new stackId props) =
  map (fun e => DnsStack.crossAccountRole "RootHostedZone"
                  (DnsStack.domainName props) (fst e) (snd e))
      (DnsStack.trustedAccounts props).
Proof.
  unfold DnsStack.roles, DnsStack.new, DnsStack.constructor, Js.entries.
  cbn [scope]. repeat (rewrite build_bind; cbv beta).
  cbn [declare snd fst children ret Build_Sequenced]. rewrite !rolesOf_app.
  rewrite (loop_roles stackId (DnsStack.domainName props)).
  cbn. now rewrite !app_nil_r.
Qed.


Lemma crossAccountRole_patterns (zone domain stageName account : string) :
  DnsStack.changePatterns (DnsStack.crossAccountRole zone domain stageName account) =
  [DnsStack.recordNamePattern stageName domain].
Proof. reflexivity. Qed.

Lemma DnsStack_role_at (stackId : string) (props : DnsStack.DnsStackProps)
    (i : nat) (stageName account : string) :
  nth_error (DnsStack.trustedAccounts props) i = Some (stageName, account) ->
  nth_error (DnsStack.roles (DnsStack.new stackId props)) i =
  Some (DnsStack.crossAccountRole "RootHostedZone" (DnsStack.domainName props)
          stageName account).
Proof.
  intros E. rewrite DnsStack_roles. now rewrite nth_error_map, E.
Qed.

Lemma append_cancel_l (a b c : string) : a +:+ b = a +:+ c -> b = c.
Proof.
  induction a as [|x a IH]; [trivial|].
  rewrite !append_cons. intros E. injection E as E. auto.
Qed.

Lemma charAt_slice (s : string) : Js.charAt 0 s +:+ Js.slice 1 s = s.
Proof. destruct s; reflexivity. Qed.

Lemma capitalizeFirstLetter_fixed (s : string) :
  ImportingStaticWebsiteStack.capitalizeFirstLetter s = s ->
  Js.toUpperCase (Js.charAt 0 s) = Js.charAt 0 s.
Proof.
  unfold ImportingStaticWebsiteStack.capitalizeFirstLetter. intros E.
  rewrite <- (charAt_slice s) in E at 3.
  now apply append_cancel_r in E.
Qed.

Lemma pattern_literal (s d : string) :
  Iam.literal s = true -> Iam.literal d = true ->
  Iam.literal (s +:+ "." +:+ d) = true.
Proof. intros Ls Ld. rewrite !literal_append, Ls, Ld. reflexivity. Qed.

Lemma pattern_matches (s d name : string) :
  Iam.literal s = true -> Iam.literal d = true ->
  (Iam.StringLike (DnsStack.recordNamePattern s d) name = true <->
   Js.ends_with (s +:+ "." +:+ d) name).
Proof.
  intros Ls Ld. unfold DnsStack.recordNamePattern.
  apply StringLike_suffix. now apply pattern_literal.
Qed.

(** C3 (amended). For every stage name s and account in the trusted-accounts
    mapping of the DNS stack, whose domain is d, the role declared for that
    entry is named CrossAccountDnsManagementRole-s and trusts that account,
    and the pattern in its ChangeResourceRecordSets condition is [*s.d]:
    the wildcard is followed by the stage name at once, with no dot
    between them.  That statement is the third of the role's one inline
    policy: it allows route53:ChangeResourceRecordSets on the root zone
    under the one condition ForAnyValue:StringLike on
    route53:ChangeResourceRecordSetsNormalizedRecordNames, whose only value
    is that pattern. *)
Theorem C3_record_name_pattern (stackId : string) (props : DnsStack.DnsStackProps)
    (i : nat) (stageName account : string) :
  nth_error (DnsStack.trustedAccounts props) i = Some (stageName, account) ->
  exists role listing reading,
    nth_error (DnsStack.roles (DnsStack.new stackId props)) i = Some role /\
    roleName role = "CrossAccountDnsManagementRole-" +:+ stageName /\
    Construct.assumedBy role = AccountPrincipal account /\
    inlinePolicies role =
      [("delegation",
        [ listing; reading;
          {| effect := ALLOW;
             actions := ["route53:ChangeResourceRecordSets"];
             resources := [Attribute "RootHostedZone" "hostedZoneArn"];
             conditions :=
               [ {| operator := "ForAnyValue:StringLike";
                    key := "route53:ChangeResourceRecordSetsNormalizedRecordNames";
                    values :=
                      ["*" +:+ stageName +:+ "." +:+ DnsStack.domainName props] |} ] |} ])] /\
    actions listing = ["route53:ListHostedZonesByName"] /\
    actions reading = ["route53:GetHostedZone"] /\
    DnsStack.changePatterns role =
      ["*" +:+ stageName +:+ "." +:+ DnsStack.domainName props].
Proof.
  intros E. do 3 eexists.
  split; [apply (DnsStack_role_at _ _ _ _ _ E)|].
  repeat split.
Qed.

Lemma C3_record_name_pattern_witness :
  exists role listing reading,
    nth_error (DnsStack.roles (DnsStack.new "DnsStack" Example.dns_example)) 0
      = Some role /\
    roleName role = "CrossAccountDnsManagementRole-gamma" /\
    Construct.assumedBy role = AccountPrincipal "222222222222" /\
    inlinePolicies role =
      [("delegation",
        [ listing; reading;
          {| effect := ALLOW;
             actions := ["route53:ChangeResourceRecordSets"];
             resources := [Attribute "RootHostedZone" "hostedZoneArn"];
             conditions :=
               [ {| operator := "ForAnyValue:StringLike";
                    key := "route53:ChangeResourceRecordSetsNormalizedRecordNames";
                    values := ["*gamma.example.com"] |} ] |} ])] /\
    actions listing = ["route53:ListHostedZonesByName"] /\
    actions reading = ["route53:GetHostedZone"] /\
    DnsStack.changePatterns role = ["*gamma.example.com"].
Proof.
  exact (C3_record_name_pattern "DnsStack" Example.dns_example 0
           "gamma" "222222222222" eq_refl).
Defined.

(** C3 as stated fails: for the stage gamma of example.com the pattern in
    the role's condition is not [*.gamma.example.com]. *)
Lemma C3_counterexample :
  map DnsStack.changePatterns (DnsStack.roles (DnsStack.new "DnsStack" Example.dns_example)) <>
  [ ["*." +:+ "gamma" +:+ "." +:+ "example.com"];
    ["*." +:+ "prod" +:+ "." +:+ "example.com"] ].
Proof. vm_compute. discriminate. Qed.

Lemma pattern_contains_stage (s d : string) :
  Js.contains s (DnsStack.recordNamePattern s d).
Proof. exists "*", ("." +:+ d). reflexivity. Qed.

(** C6 (amended). For every trusted-accounts mapping given to the DNS
    stack, the record-name pattern of each stage's role contains the
    stage's name, and for two stages of the mapping whose names and domain
    hold no wildcard character and where neither name is a suffix of the
    other, no record name is matched by both patterns. *)
Theorem C6_patterns_anchored_and_disjoint (stackId : string)
    (props : DnsStack.DnsStackProps) :
  (forall i stageName account,
      nth_error (DnsStack.trustedAccounts props) i = Some (stageName, account) ->
      exists role pattern,
        nth_error (DnsStack.roles (DnsStack.new stackId props)) i = Some role /\
        DnsStack.changePatterns role = [pattern] /\
        Js.contains stageName pattern) /\
  (forall i j s1 a1 s2 a2 role1 role2,
      nth_error (DnsStack.trustedAccounts props) i = Some (s1, a1) ->
      nth_error (DnsStack.trustedAccounts props) j = Some (s2, a2) ->
      nth_error (DnsStack.roles (DnsStack.new stackId props)) i = Some role1 ->
      nth_error (DnsStack.roles (DnsStack.new stackId props)) j = Some role2 ->
      Iam.literal s1 = true -> Iam.literal s2 = true ->
      Iam.literal (DnsStack.domainName props) = true ->
      ~ Js.ends_with s1 s2 -> ~ Js.ends_with s2 s1 ->
      forall p1 p2,
        In p1 (DnsStack.changePatterns role1) ->
        In p2 (DnsStack.changePatterns role2) ->
        ~ Iam.overlap p1 p2).
Proof.
  split.
  - intros i s a E. eexists. eexists.
    split; [apply (DnsStack_role_at _ _ _ _ _ E)|].
    split; [reflexivity | apply pattern_contains_stage].
  - intros i j s1 a1 s2 a2 role1 role2 E1 E2 R1 R2 L1 L2 Ld N12 N21 p1 p2 I1 I2.
    rewrite (DnsStack_role_at _ _ _ _ _ E1) in R1. injection R1 as <-.
    rewrite (DnsStack_role_at _ _ _ _ _ E2) in R2. injection R2 as <-.
    rewrite crossAccountRole_patterns in I1, I2.
    destruct I1 as [<- | []]. destruct I2 as [<- | []].
    intros [name [M1 M2]].
    apply pattern_matches in M1; [|assumption..].
    apply pattern_matches in M2; [|assumption..].
    destruct (suffix_comparable _ _ _ M1 M2) as [S | S];
      apply suffix_cancel in S; contradiction.
Qed.

Lemma C6_patterns_anchored_and_disjoint_witness :
  (exists role pattern,
      nth_error (DnsStack.roles (DnsStack.new "DnsStack" Example.dns_example)) 1 = Some role /\
      DnsStack.changePatterns role = [pattern] /\
      Js.contains "prod" pattern) /\
  ~ Iam.overlap "*gamma.example.com" "*prod.example.com".
Proof.
  pose proof (C6_patterns_anchored_and_disjoint "DnsStack" Example.dns_example) as [A D].
  split.
  - apply (A 1 "prod" "333333333333"). reflexivity.
  - apply (D 0 1 "gamma" "222222222222" "prod" "333333333333" _ _
             eq_refl eq_refl eq_refl eq_refl eq_refl eq_refl eq_refl).
    + intros [u E]. apply (f_equal String.length) in E.
      rewrite length_append in E. cbn in E. lia.
    + intros [u E]. pose proof (f_equal String.length E) as L.
      rewrite length_append in L. cbn in L.
      destruct u as [|a [|b u]]; cbn in L; try lia.
      rewrite append_cons, append_nil_l in E. discriminate.
    + left. reflexivity.
    + left. reflexivity.
Defined.

(** C6 as stated fails: the stages prod and preprod are distinct, yet the
    record name preprod.example.com is matched by both of their patterns. *)
Lemma C6_counterexample :
  map DnsStack.changePatterns
      (DnsStack.roles (DnsStack.new "DnsStack" Example.overlapping_example)) =
    [["*prod.example.com"]; ["*preprod.example.com"]] /\
  "prod" <> "preprod" /\
  Iam.overlap "*prod.example.com" "*preprod.example.com".
Proof.
  split; [reflexivity|]. split; [discriminate|].
  exists "preprod.example.com". split; reflexivity.
Qed.

Lemma importing_delegation_role (stackId : string)
    (props : StaticWebsiteStack.StaticWebsiteStackProps) :
  Construct.find (scope (ImportingStaticWebsiteStack.new stackId props)) "DelegationRole"
  = Some (RoleFromArn (ImportingStaticWebsiteStack.delegationRoleArn props)).
Proof.
  unfold ImportingStaticWebsiteStack.new, ImportingStaticWebsiteStack.constructor.
  destruct (String.eqb (StaticWebsiteStack.stageName props) "prod"); reflexivity.
Qed.

(** C10. The stack of part_004 refers to the delegation role under the
    name CrossAccountDnsManagementRole- followed by the stage name with its
    first letter capitalized, the DNS stack names the role it declares for
    a stage with the stage name as it is, and so for every stage name whose
    first character is not uppercase already (upper-casing changes it) the
    name referred to differs from the name of the role the DNS stack
    declares for that stage. *)
Theorem C10_capitalized_role_name_differs
    (dnsId : string) (dns : DnsStack.DnsStackProps)
    (siteId : string) (site : StaticWebsiteStack.StaticWebsiteStackProps)
    (i : nat) (account : string) :
  let stageName := StaticWebsiteStack.stageName site in
  Js.toUpperCase (Js.charAt 0 stageName) <> Js.charAt 0 stageName ->
  nth_error (DnsStack.trustedAccounts dns) i = Some (stageName, account) ->
  exists arn role,
    Construct.find (scope (ImportingStaticWebsiteStack.new siteId site)) "DelegationRole"
      = Some (RoleFromArn arn) /\
    Cdk.arn_resourceName arn =
      "CrossAccountDnsManagementRole-" +:+
      ImportingStaticWebsiteStack.capitalizeFirstLetter stageName /\
    nth_error (DnsStack.roles (DnsStack.new dnsId dns)) i = Some role /\
    roleName role = "CrossAccountDnsManagementRole-" +:+ stageName /\
    Cdk.arn_resourceName arn <> roleName role.
Proof.
  intros stageName U E.
  exists (ImportingStaticWebsiteStack.delegationRoleArn site). eexists.
  split; [apply importing_delegation_role|]. split; [reflexivity|].
  split; [apply (DnsStack_role_at _ _ _ _ _ E)|]. split; [reflexivity|].
  cbn [Cdk.arn_resourceName ImportingStaticWebsiteStack.delegationRoleArn
       roleName DnsStack.crossAccountRole].
  intros C. apply append_cancel_l in C.
  now apply capitalizeFirstLetter_fixed in C.
Qed.

Lemma C10_capitalized_role_name_differs_witness :
  exists arn role,
    Construct.find (scope (ImportingStaticWebsiteStack.new "GammaStaticWebsiteStack" Example.gamma_site))
      "DelegationRole" = Some (RoleFromArn arn) /\
    Cdk.arn_resourceName arn = "CrossAccountDnsManagementRole-Gamma" /\
    nth_error (DnsStack.roles (DnsStack.new "DnsStack" Example.dns_example)) 0 = Some role /\
    roleName role = "CrossAccountDnsManagementRole-gamma" /\
    Cdk.arn_resourceName arn <> roleName role.
Proof.
  apply (C10_capitalized_role_name_differs "DnsStack" Example.dns_example
           "GammaStaticWebsiteStack" Example.gamma_site 0 "222222222222").
  - vm_compute. discriminate.
  - reflexivity.
Defined.

(** ** The root certificate stack *)

(** C7. Whatever account and region the props name, the root certificate
    stack is created in us-east-1, and the certificate is a construct of
    that stack. *)
Theorem C7_root_certificate_region (stackId : string)
    (props : RootCertificateStack.RootCertificateStackProps) :
  let s := RootCertificateStack.new stackId props in
  Cdk.stack_region (stack s) = Cdk.Concrete "us-east-1" /\
  Construct.find (scope s) "MultiDomainCertificate" =
    Some (Certificate (RootCertificateStack.rootHostedZoneName props)
            [ "*." +:+ RootCertificateStack.rootHostedZoneName props;
              "prod." +:+ RootCertificateStack.rootHostedZoneName props ]
            (fromDns (Some "HostedZone"))).
Proof. split; reflexivity. Qed.

(** ** The static-website stack of src/infra/lib *)

Lemma delegation_id_not_certificate (s : string) :
  String.eqb ("DelegationRecord-" +:+ s) "SubdomainCertificate" = false.
Proof. reflexivity. Qed.

Lemma site_ids (stackId : string) (props : StaticWebsiteStack.StaticWebsiteStackProps) :
  Construct.ids (scope (StaticWebsiteStack.new stackId props)) =
  [ "SiteBucket"; "DelegationRole"; "OAI"; "subdomainHostedZone";
    "SubdomainCertificate"; "DelegationRecord-" +:+ StaticWebsiteStack.stageName props;
    "Distribution"; "AliasRecord"; "subdomainDelegationRecord"; "WebsiteDeployment";
    "DelegationRecord"; "BucketName"; "DistributionId"; "DistributionDomainName";
    "WebsiteUrl" ].
Proof. reflexivity. Qed.

Lemma site_dependencies (stackId : string) (props : StaticWebsiteStack.StaticWebsiteStackProps) :
  dependencies (scope (StaticWebsiteStack.new stackId props)) =
  [ ("SubdomainCertificate", "DelegationRecord-" +:+ StaticWebsiteStack.stageName props) ].
Proof. reflexivity. Qed.

(** C9. For every stage the stack of src/infra/lib declares two delegation
    records, DelegationRecord-<stage> and subdomainDelegationRecord, and
    both delegate the same sub-zone into the same parent zone through the
    same role. *)
Theorem C9_two_delegation_records (stackId : string)
    (props : StaticWebsiteStack.StaticWebsiteStackProps) :
  let s := StaticWebsiteStack.new stackId props in
  Website.delegationRecords s =
    [ {| id := "DelegationRecord-" +:+ StaticWebsiteStack.stageName props;
         resource := CrossAccountZoneDelegationRecord "DelegationRole"
                       "subdomainHostedZone"
                       (StaticWebsiteStack.rootHostedZoneName props) |};
      {| id := "subdomainDelegationRecord";
         resource := CrossAccountZoneDelegationRecord "DelegationRole"
                       "subdomainHostedZone"
                       (StaticWebsiteStack.rootHostedZoneName props) |} ] /\
  "DelegationRecord-" +:+ StaticWebsiteStack.stageName props <> "subdomainDelegationRecord" /\
  Construct.find (scope s) "DelegationRole" =
    Some (RoleFromArn (StaticWebsiteStack.delegationRoleArn props)) /\
  Construct.find (scope s) "subdomainHostedZone" =
    Some (PublicHostedZone (StaticWebsiteStack.domainName props) None).
Proof.
  repeat split. discriminate.
Qed.

Lemma before_asymmetric (x y : string) (order : list string) :
  Order.before x y order -> ~ Order.before y x order.
Proof.
  intros (i & j & Hi & Hj & L) (j' & i' & Hj' & Hi' & L').
  rewrite Hi in Hi'. rewrite Hj in Hj'.
  injection Hi' as <-. injection Hj' as <-. lia.
Qed.

(** C5. In the stack of src/infra/lib the certificate has an explicit
    dependency edge on the delegation record DelegationRecord-<stage>, so
    in every evaluation order of the stack's constructs that respects the
    dependency edges the delegation record comes before the certificate,
    and the certificate never before the record. *)
Theorem C5_certificate_after_delegation (stackId : string)
    (props : StaticWebsiteStack.StaticWebsiteStackProps) (order : list string) :
  let s := StaticWebsiteStack.new stackId props in
  let record := "DelegationRecord-" +:+ StaticWebsiteStack.stageName props in
  Order.evaluation (scope s) order ->
  In {| id := "SubdomainCertificate";
        resource :=
          Certificate (StaticWebsiteStack.domainName props)
            (if String.eqb (StaticWebsiteStack.stageName props) "prod"
             then [StaticWebsiteStack.rootHostedZoneName props] else [])
            (fromDns None) |} (children (scope s)) /\
  In {| id := record;
        resource :=
          CrossAccountZoneDelegationRecord "DelegationRole" "subdomainHostedZone"
            (StaticWebsiteStack.rootHostedZoneName props) |} (children (scope s)) /\
  In ("SubdomainCertificate", record) (dependencies (scope s)) /\
  Order.before record "SubdomainCertificate" order /\
  ~ Order.before "SubdomainCertificate" record order.
Proof.
  intros s record [_ R].
  assert (E : In ("SubdomainCertificate", record) (dependencies (scope s)))
    by (left; reflexivity).
  split; [do 4 right; left; reflexivity|].
  split; [do 5 right; left; reflexivity|].
  split; [exact E|].
  pose proof (R _ _ E) as B.
  split; [exact B | now apply before_asymmetric].
Qed.

Lemma C5_certificate_after_delegation_witness :
  let order :=
    [ "SiteBucket"; "DelegationRole"; "OAI"; "subdomainHostedZone";
      "DelegationRecord-gamma"; "SubdomainCertificate";
      "Distribution"; "AliasRecord"; "subdomainDelegationRecord"; "WebsiteDeployment";
      "DelegationRecord"; "BucketName"; "DistributionId"; "DistributionDomainName";
      "WebsiteUrl" ] in
  Order.before "DelegationRecord-gamma" "SubdomainCertificate" order /\
  ~ Order.before "SubdomainCertificate" "DelegationRecord-gamma" order.
Proof.
  intros order.
  apply (C5_certificate_after_delegation "GammaStaticWebsiteStack"
           Example.gamma_site order).
  split.
  - do 4 apply perm_skip. apply perm_swap.
  - intros dependent on [E | []]. injection E as <- <-.
    exists 4, 5. repeat split. lia.
Defined.

Lemma site_distribution (stackId : string) (props : StaticWebsiteStack.StaticWebsiteStackProps) :
  Website.distribution (StaticWebsiteStack.new stackId props) =
  Some (if String.eqb (StaticWebsiteStack.stageName props) "prod"
        then [StaticWebsiteStack.rootHostedZoneName props; StaticWebsiteStack.domainName props]
        else [StaticWebsiteStack.domainName props],
        "SubdomainCertificate").
Proof. reflexivity. Qed.

Lemma site_certificate_names (stackId : string)
    (props : StaticWebsiteStack.StaticWebsiteStackProps) :
  Website.certificateNames (StaticWebsiteStack.new stackId props) =
  Some (StaticWebsiteStack.domainName props ::
        if String.eqb (StaticWebsiteStack.stageName props) "prod"
        then [StaticWebsiteStack.rootHostedZoneName props] else []).
Proof. reflexivity. Qed.

Lemma site_distribution_names (stackId : string)
    (props : StaticWebsiteStack.StaticWebsiteStackProps) :
  Website.distributionDomainNames (StaticWebsiteStack.new stackId props) =
  if String.eqb (StaticWebsiteStack.stageName props) "prod"
  then [StaticWebsiteStack.rootHostedZoneName props; StaticWebsiteStack.domainName props]
  else [StaticWebsiteStack.domainName props].
Proof. reflexivity. Qed.

(** In src/infra/lib every distribution name is a name of the certificate. *)
Lemma site_covered (stackId : string) (props : StaticWebsiteStack.StaticWebsiteStackProps) :
  Website.covered (StaticWebsiteStack.new stackId props) = true.
Proof.
  unfold Website.covered.
  rewrite site_certificate_names, site_distribution_names.
  destruct (String.eqb (StaticWebsiteStack.stageName props) "prod");
    cbn; rewrite !String.eqb_refl; cbn; now rewrite ?orb_true_r.
Qed.

Lemma importing_distribution_names (stackId : string)
    (props : StaticWebsiteStack.StaticWebsiteStackProps) :
  Website.distributionDomainNames (ImportingStaticWebsiteStack.new stackId props) =
  if String.eqb (StaticWebsiteStack.stageName props) "prod"
  then [ "www." +:+ StaticWebsiteStack.rootHostedZoneName props;
         StaticWebsiteStack.rootHostedZoneName props;
         StaticWebsiteStack.domainName props ]
  else [StaticWebsiteStack.domainName props].
Proof.
  unfold ImportingStaticWebsiteStack.new, ImportingStaticWebsiteStack.constructor.
  destruct (String.eqb (StaticWebsiteStack.stageName props) "prod"); reflexivity.
Qed.

Lemma importing_certificate_names (stackId : string)
    (props : StaticWebsiteStack.StaticWebsiteStackProps) :
  Website.certificateNames (ImportingStaticWebsiteStack.new stackId props) =
  if String.eqb (StaticWebsiteStack.stageName props) "prod"
  then Some [StaticWebsiteStack.domainName props]
  else None.
Proof.
  unfold ImportingStaticWebsiteStack.new, ImportingStaticWebsiteStack.constructor.
  destruct (String.eqb (StaticWebsiteStack.stageName props) "prod"); reflexivity.
Qed.

(** C2, at the prod stage of the stack of part_004: the distribution
    declares www.example.com, example.com and prod.example.com, the
    certificate bound to it covers prod.example.com alone, and so the
    distribution's names are not among the certificate's. *)
Theorem C2_importing_prod_not_covered :
  let s := ImportingStaticWebsiteStack.new "ProdStaticWebsiteStack" Example.prod_site in
  Website.distributionDomainNames s =
    ["www.example.com"; "example.com"; "prod.example.com"] /\
  Website.certificateNames s = Some ["prod.example.com"] /\
  Website.covered s = false.
Proof. repeat split. Qed.

(** ** The entry points *)


Lemma config_get (i : App.Inputs) (field : string) :
  In field App.requiredEnvironmentVars ->
  App.get (App.config i) field =
  Js.or (App.tryGetContext i field) (App.fromEnvironment i field).
Proof.
  intros H. repeat (destruct H as [<- | H]; [reflexivity|]). destruct H.
Qed.



Lemma validate_run (c : App.Config) (st : list App.StackDecl) :
  App.validate c st =
  match App.firstMissing c with
  | Some field => (App.Thrown (App.missing field), st)
  | None => (App.Returned tt, st)
  end.
Proof.
  unfold App.validate, App.firstMissing.
  induction App.requiredEnvironmentVars as [|f fs IH]; [reflexivity|].
  cbn [for_of List.find]. unfold bind at 1. cbn [App.Run_Sequenced].
  destruct (negb (Js.truthy (App.get c f))); [reflexivity|].
  cbn. exact IH.
Qed.

Lemma run_bind {A B : Type} (m : App.Run A) (k : A -> App.Run B)
    (st : list App.StackDecl) :
  bind m k st =
  match m st with
  | (App.Returned a, st') => k a st'
  | (App.Thrown message, st') => (App.Thrown message, st')
  end.
Proof. reflexivity. Qed.

Lemma construct_accepted (library : App.Library) (ds : list App.StackDecl) :
  App.accepted library ds -> App.construct library ds = (App.Returned tt, ds).
Proof.
  induction ds as [|d ds IH]; [reflexivity|]. intros A.
  cbn [App.construct]. rewrite (A d (or_introl eq_refl)).
  rewrite IH; [reflexivity|]. intros x H. apply A. now right.
Qed.

Lemma construct_returned (library : App.Library) (ds stacks : list App.StackDecl) :
  App.construct library ds = (App.Returned tt, stacks) ->
  stacks = ds /\ App.accepted library ds.
Proof.
  revert stacks. induction ds as [|d ds IH]; intros stacks.
  - intros E. injection E as <-. split; [reflexivity|]. intros x [].
  - cbn [App.construct]. destruct (library d) eqn:L; [discriminate|].
    destruct (App.construct library ds) as [o built]. cbn [fst snd].
    intros E. injection E as -> <-.
    destruct (IH built eq_refl) as [-> A].
    split; [reflexivity|]. intros x [<- | H]; [exact L | now apply A].
Qed.


Ltac each_call library :=
  repeat match goal with
         | |- context [library ?d] => destruct (library d)
         end.

Lemma run_construct (library : App.Library) (i : App.Inputs) :
  App.run library i =
  match App.firstMissing (App.config i) with
  | Some field => (App.Thrown (App.missing field), [])
  | None => App.construct library (App.calls (App.config i))
  end.
Proof.
  unfold App.run, App.main. rewrite run_bind, validate_run.
  destruct (App.firstMissing (App.config i)); [reflexivity|].
  unfold App.calls.
  cbn [for_of flat_map App.stages app App.construct bind ret App.Run_Sequenced].
  unfold App.instantiate. each_call library; reflexivity.
Qed.

Lemma named_run_construct (library : App.Library) (i : App.Inputs) :
  NamedApp.run library i =
  match App.firstMissing (App.config i) with
  | Some field => (App.Thrown (App.missing field), [])
  | None => App.construct library (NamedApp.calls (App.config i))
  end.
Proof.
  unfold NamedApp.run, NamedApp.main. rewrite run_bind, validate_run.
  destruct (App.firstMissing (App.config i)); [reflexivity|].
  unfold NamedApp.calls.
  cbn [App.construct bind ret App.Run_Sequenced].
  unfold App.instantiate. each_call library; reflexivity.
Qed.

Lemma run_returned_calls (library : App.Library) (i : App.Inputs)
    (stacks : list App.StackDecl) :
  App.run library i = (App.Returned tt, stacks) ->
  App.firstMissing (App.config i) = None /\
  stacks = App.calls (App.config i) /\
  App.accepted library (App.calls (App.config i)).
Proof.
  rewrite run_construct.
  destruct (App.firstMissing (App.config i)); [discriminate|].
  intros E. split; [reflexivity|]. now apply construct_returned.
Qed.

Lemma named_run_returned_calls (library : App.Library) (i : App.Inputs)
    (stacks : list App.StackDecl) :
  NamedApp.run library i = (App.Returned tt, stacks) ->
  App.firstMissing (App.config i) = None /\
  stacks = NamedApp.calls (App.config i) /\
  App.accepted library (NamedApp.calls (App.config i)).
Proof.
  rewrite named_run_construct.
  destruct (App.firstMissing (App.config i)); [discriminate|].
  intros E. split; [reflexivity|]. now apply construct_returned.
Qed.





Ltac by_length H :=
  apply (f_equal String.length) in H;
  rewrite ?length_append in H; cbn in H; lia.

Lemma run_websites (library : App.Library) (i : App.Inputs)
    (stacks : list App.StackDecl) :
  App.run library i = (App.Returned tt, stacks) ->
  App.websites stacks =
  [ (App.websiteProps (App.config i) "gamma",
     StaticWebsiteStack.new "GammaStaticWebsiteStack"
       (App.websiteProps (App.config i) "gamma"));
    (App.websiteProps (App.config i) "prod",
     StaticWebsiteStack.new "ProdStaticWebsiteStack"
       (App.websiteProps (App.config i) "prod")) ].
Proof.
  intros R. destruct (run_returned_calls _ _ _ R) as (_ & -> & _). reflexivity.
Qed.

Lemma site_claims (stackId : string) (props : StaticWebsiteStack.StaticWebsiteStackProps) :
  let root := StaticWebsiteStack.rootHostedZoneName props in
  StaticWebsiteStack.domainName props =
    StaticWebsiteStack.stageName props +:+ "." +:+ root ->
  StaticWebsiteStack.stageName props <> "www" ->
  exists names,
    Website.certificateNames (StaticWebsiteStack.new stackId props) = Some names /\
    let served := Website.distributionDomainNames (StaticWebsiteStack.new stackId props) in
    if String.eqb (StaticWebsiteStack.stageName props) "prod"
    then In root served /\ In root names /\
         ~ In ("www." +:+ root) served /\ ~ In ("www." +:+ root) names
    else ~ In root served /\ ~ In ("www." +:+ root) served /\
         ~ In root names /\ ~ In ("www." +:+ root) names.
Proof.
  intros root D N. eexists. split; [apply site_certificate_names|].
  rewrite site_distribution_names.
  assert (Hroot : StaticWebsiteStack.domainName props <> root)
    by (rewrite D; intros H; by_length H).
  assert (Hwww : StaticWebsiteStack.domainName props <> "www." +:+ root).
  { rewrite D. intros H. apply N.
    apply (append_cancel_r _ "www" ("." +:+ root)). exact H. }
  assert (Hrw : root <> "www." +:+ root) by (intros H; by_length H).
  fold root.
  destruct (String.eqb (StaticWebsiteStack.stageName props) "prod");
    cbn [In]; intuition congruence.
Qed.

(** C1 (amended). For every deployment built from a valid configuration by
    src/infra, the website stacks are those of gamma and prod; the prod
    stack's distribution names and certificate names both include the bare
    root domain and neither includes www.<root>; the gamma stack's
    distribution names and certificate names include neither the root
    domain nor www.<root>.  In the stack of part_004 the prod
    distribution's names include the root domain and www.<root>, and the
    distribution of another stage whose domain is <stage>.<root>, the
    stage not being www, includes neither. *)
Theorem C1_prod_claims_root_domain (library : App.Library) (i : App.Inputs)
    (stacks : list App.StackDecl) :
  App.run library i = (App.Returned tt, stacks) ->
  let root := App.str (App.domainName (App.config i)) in
  map (fun w => StaticWebsiteStack.stageName (fst w)) (App.websites stacks)
    = ["gamma"; "prod"] /\
  (forall props s,
      In (props, s) (App.websites stacks) ->
      StaticWebsiteStack.rootHostedZoneName props = root /\
      exists names,
        Website.certificateNames s = Some names /\
        let served := Website.distributionDomainNames s in
        if String.eqb (StaticWebsiteStack.stageName props) "prod"
        then In root served /\ In root names /\
             ~ In ("www." +:+ root) served /\ ~ In ("www." +:+ root) names
        else ~ In root served /\ ~ In ("www." +:+ root) served /\
             ~ In root names /\ ~ In ("www." +:+ root) names) /\
  (forall stackId props,
      let served :=
        Website.distributionDomainNames (ImportingStaticWebsiteStack.new stackId props) in
      let zone := StaticWebsiteStack.rootHostedZoneName props in
      if String.eqb (StaticWebsiteStack.stageName props) "prod"
      then In zone served /\ In ("www." +:+ zone) served
      else StaticWebsiteStack.domainName props =
             StaticWebsiteStack.stageName props +:+ "." +:+ zone ->
           StaticWebsiteStack.stageName props <> "www" ->
           ~ In zone served /\ ~ In ("www." +:+ zone) served).
Proof.
  intros R root. rewrite (run_websites library i stacks R).
  split; [reflexivity|]. split.
  - intros props s [E | [E | []]]; injection E as <- <-;
      (split; [reflexivity|]);
      refine (site_claims _ (App.websiteProps (App.config i) _) eq_refl _);
      discriminate.
  - intros stackId props served zone. subst served.
    rewrite importing_distribution_names.
    destruct (String.eqb (StaticWebsiteStack.stageName props) "prod").
    + cbn. tauto.
    + intros D N. rewrite D. split; intros [H | []].
      * by_length H.
      * apply N. apply (append_cancel_r _ "www" ("." +:+ zone)). exact H.
Qed.

Lemma C1_prod_claims_root_domain_witness :
  map (fun w => StaticWebsiteStack.stageName (fst w))
      (App.websites (snd (App.run Checks.library Example.inputs))) = ["gamma"; "prod"].
Proof.
  apply (C1_prod_claims_root_domain Checks.library Example.inputs
           (snd (App.run Checks.library Example.inputs))).
  vm_compute. reflexivity.
Defined.

(** C1 as stated fails: the configuration of [Example.inputs] is valid,
    yet neither the domain names of the prod distribution nor the names of
    its certificate include www.example.com. *)
Lemma C1_counterexample :
  fst (App.run Checks.library Example.inputs) = App.Returned tt /\
  ~ (forall props s,
        In (props, s) (App.websites (snd (App.run Checks.library Example.inputs))) ->
        StaticWebsiteStack.stageName props = "prod" ->
        exists names,
          Website.certificateNames s = Some names /\
          In "example.com" (Website.distributionDomainNames s) /\
          In "www.example.com" (Website.distributionDomainNames s) /\
          In "example.com" names /\
          In "www.example.com" names).
Proof.
  split; [vm_compute; reflexivity|].
  intros H.
  destruct (H (App.websiteProps (App.config Example.inputs) "prod")
              (StaticWebsiteStack.new "ProdStaticWebsiteStack"
                 (App.websiteProps (App.config Example.inputs) "prod")))
    as (names & _ & _ & W & _).
  - rewrite (run_websites Checks.library Example.inputs _ (surjective_pairing _)) at 1.
    right. left. reflexivity.
  - reflexivity.
  - vm_compute in W. intuition discriminate.
Qed.

(** ** The trust of the deploy role *)

Section TrustPreserved.

Import GitHubActionsRoleStack.

Lemma keeps_ret {A : Type} (a : A) : keeps_trust (ret a).
Proof. intros sc p H. exact H. Qed.

Lemma keeps_bind {A B : Type} (m : Build A) (k : A -> Build B) :
  keeps_trust m -> (forall a, keeps_trust (k a)) -> keeps_trust (bind m k).
Proof.
  intros Hm Hk sc p H. cbn. specialize (Hm sc p H).
  destruct (m sc) as [a sc']. now apply Hk.
Qed.

Lemma find_declare (i : string) (r : Resource) (sc : Scope) (j : string) (x : Resource) :
  Construct.find sc j = Some x -> Construct.find (snd (declare i r sc)) j = Some x.
Proof.
  unfold Construct.find. cbn [declare snd children].
  induction (children sc) as [|n ns IH]; [discriminate|].
  cbn [List.find app]. destruct (String.eqb (id n) j); [trivial | exact IH].
Qed.

Lemma keeps_declare (i : string) (r : Resource) : keeps_trust (declare i r).
Proof.
  intros sc p. unfold trustOf.
  destruct (Construct.find sc "GitHubActionsDeployRole") as [x|] eqn:F; [|discriminate].
  now rewrite (find_declare i r sc _ x F).
Qed.

Lemma find_update (target : ref) (f : Resource -> Resource) (sc : Scope) (j : string) :
  Construct.find (snd (Construct.update target f sc)) j =
  (fun r => if String.eqb j target then f r else r) <$> Construct.find sc j.
Proof.
  unfold Construct.find. cbn [Construct.update snd children].
  induction (children sc) as [|n ns IH]; [reflexivity|].
  cbn [map List.find].
  destruct (String.eqb (id n) target) eqn:T; cbn [id];
    destruct (String.eqb (id n) j) eqn:J; try exact IH; cbn.
  - apply String.eqb_eq in J. subst j. now rewrite T.
  - apply String.eqb_eq in J. subst j. now rewrite T.
Qed.

Lemma keeps_addManagedPolicy (role : ref) (name : string) :
  keeps_trust (addManagedPolicy role name).
Proof.
  intros sc p. unfold trustOf, addManagedPolicy. rewrite find_update.
  destruct (Construct.find sc "GitHubActionsDeployRole") as [r|]; [|discriminate].
  cbn -[String.eqb existsb].
  destruct (String.eqb "GitHubActionsDeployRole" role); destruct r; trivial.
  destruct (existsb (String.eqb name) (managedPolicies props)); trivial.
Qed.

Lemma keeps_addToPolicy (role : ref) (st : PolicyStatement) :
  keeps_trust (addToPolicy role st).
Proof.
  intros sc p. unfold trustOf, addToPolicy. rewrite find_update.
  destruct (Construct.find sc "GitHubActionsDeployRole") as [r|]; [|discriminate].
  cbn -[String.eqb].
  destruct (String.eqb "GitHubActionsDeployRole" role); destruct r; trivial.
Qed.

Lemma keeps_for_of {A : Type} (xs : list A) (body : A -> Build unit) :
  (forall x, keeps_trust (body x)) -> keeps_trust (for_of xs body).
Proof.
  intros H. induction xs as [|x xs IH]; [apply keeps_ret|].
  cbn [for_of]. apply keeps_bind; [apply H | intros _; exact IH].
Qed.

End TrustPreserved.

Lemma bind_declare {B : Type} (i : string) (r : Resource) (k : ref -> Build B)
    (sc : Scope) :
  bind (declare i r) k sc = k i (snd (declare i r sc)).
Proof. reflexivity. Qed.

Lemma role_trust (stackId : string)
    (props : GitHubActionsRoleStack.GitHubActionsRoleStackProps) :
  GitHubActionsRoleStack.trust (GitHubActionsRoleStack.new stackId props) =
  Some (GitHubActionsRoleStack.assumedBy "GitHubOIDCProvider" props).
Proof.
  unfold GitHubActionsRoleStack.trust, GitHubActionsRoleStack.new,
    GitHubActionsRoleStack.constructor.
  cbn [scope]. rewrite !bind_declare.
  match goal with
  | |- GitHubActionsRoleStack.trustOf (snd (?m ?sc)) = _ =>
      cut (GitHubActionsRoleStack.keeps_trust m);
        [intros K; apply K; reflexivity|]
  end.
  repeat first
    [ apply keeps_ret
    | apply keeps_declare
    | apply keeps_addManagedPolicy
    | apply keeps_addToPolicy
    | apply keeps_bind; [|intros _] ].
  destruct (GitHubActionsRoleStack.additionalPolicies props);
    [apply keeps_for_of; intros x; apply keeps_addManagedPolicy | apply keeps_ret].
Qed.

Lemma StringLike_any (s : string) : Iam.StringLike "*" s = true.
Proof.
  induction s as [|c s IH]; [reflexivity|].
  rewrite StringLike_star. rewrite IH. apply orb_true_r.
Qed.

Lemma StringLike_prefix (t s : string) :
  Iam.literal t = true ->
  (Iam.StringLike (t +:+ "*") s = true <-> exists rest, s = t +:+ rest).
Proof.
  revert s. induction t as [|c t IH]; intros s L.
  - rewrite append_nil_l, StringLike_any. split; [now exists s | trivial].
  - cbn [Iam.literal] in L. apply andb_true_iff in L as [L Lt].
    apply andb_true_iff in L as [L1 L2]. apply negb_true_iff in L1, L2.
    rewrite append_cons. cbn [Iam.StringLike]. rewrite L1.
    destruct s as [|d s].
    + split; [discriminate | intros [rest E]; rewrite append_cons in E; discriminate].
    + rewrite L2. cbn [orb]. rewrite andb_true_iff, Ascii.eqb_eq, (IH s Lt).
      split.
      * intros [-> [rest ->]]. now exists rest.
      * intros [rest E]. rewrite append_cons in E. injection E as -> ->.
        split; [reflexivity | now exists rest].
Qed.

Lemma holds_equals (k v : string) (r : Trust.Request) :
  Trust.holds {| operator := "StringEquals"; key := k; values := [v] |} r = true <->
  Trust.claims r !! k = Some v.
Proof.
  unfold Trust.holds. cbn [operator key values].
  change (String.eqb "StringEquals" "StringEquals") with true. cbv iota.
  destruct (Trust.claims r !! k) as [actual|]; [|split; discriminate].
  cbn [existsb]. unfold Iam.StringEquals. rewrite orb_false_r, String.eqb_eq.
  split; [intros ->; reflexivity | intros E; now injection E].
Qed.

Lemma holds_like (k pattern : string) (r : Trust.Request) :
  Trust.holds {| operator := "StringLike"; key := k; values := [pattern] |} r = true <->
  exists actual, Trust.claims r !! k = Some actual /\
                 Iam.StringLike pattern actual = true.
Proof.
  unfold Trust.holds. cbn [operator key values].
  change (String.eqb "StringLike" "StringEquals") with false.
  change (String.eqb "StringLike" "StringLike") with true. cbv iota.
  destruct (Trust.claims r !! k) as [actual|].
  - cbn [existsb]. rewrite orb_false_r. split.
    + intros M. now exists actual.
    + intros (a & E & M). now injection E as ->.
  - split; [discriminate | intros (a & E & _); discriminate].
Qed.

(** C8. For every repository owner and name, the trust of the deploy role
    is the federated principal of the GitHub provider with the action
    sts:AssumeRoleWithWebIdentity, the audience condition StringEquals
    sts.amazonaws.com and the subject condition StringLike
    repo:<owner>/<name>:*; a web-identity request is let through exactly
    when its action is that action, its audience is sts.amazonaws.com and
    its subject matches that pattern; and for an owner and a name without
    wildcard characters the matching subjects are exactly those that begin
    with repo:<owner>/<name>: whatever the ref after it. *)
Theorem C8_trust_scoped_to_repository (stackId : string)
    (props : GitHubActionsRoleStack.GitHubActionsRoleStackProps) :
  let owner := GitHubActionsRoleStack.repoOwner props in
  let name := GitHubActionsRoleStack.repoName props in
  let pattern := "repo:" +:+ owner +:+ "/" +:+ name +:+ ":*" in
  let s := GitHubActionsRoleStack.new stackId props in
  GitHubActionsRoleStack.trust s =
    Some (FederatedPrincipal
            (Attribute "GitHubOIDCProvider" "openIdConnectProviderArn")
            [ {| operator := "StringEquals";
                 key := "token.actions.githubusercontent.com:aud";
                 values := ["sts.amazonaws.com"] |};
              {| operator := "StringLike";
                 key := "token.actions.githubusercontent.com:sub";
                 values := [pattern] |} ]
            "sts:AssumeRoleWithWebIdentity") /\
  (forall r : Trust.Request,
      (exists p, GitHubActionsRoleStack.trust s = Some p /\ Trust.permits p r = true) <->
      (Trust.action r = "sts:AssumeRoleWithWebIdentity" /\
       Trust.claims r !! "token.actions.githubusercontent.com:aud"
         = Some "sts.amazonaws.com" /\
       exists subject,
         Trust.claims r !! "token.actions.githubusercontent.com:sub" = Some subject /\
         Iam.StringLike pattern subject = true)) /\
  (Iam.literal owner = true -> Iam.literal name = true ->
   forall subject,
     Iam.StringLike pattern subject = true <->
     exists gitRef, subject = "repo:" +:+ owner +:+ "/" +:+ name +:+ ":" +:+ gitRef).
Proof.
  intros owner name pattern s. split; [apply role_trust|]. split.
  - intros r. unfold s. rewrite role_trust.
    unfold GitHubActionsRoleStack.assumedBy, GitHubActionsRoleStack.subjectClaim.
    fold owner name pattern.
    split.
    + intros (p & E & P). injection E as <-.
      cbn [Trust.permits forallb] in P.
      apply andb_true_iff in P as [A P]. apply String.eqb_eq in A.
      apply andb_true_iff in P as [C1 P]. apply andb_true_iff in P as [C2 _].
      apply holds_equals in C1. apply holds_like in C2.
      split; [exact A|]. split; assumption.
    + intros (A & C1 & C2). eexists. split; [reflexivity|].
      cbn [Trust.permits forallb].
      apply holds_equals in C1. apply holds_like in C2.
      rewrite C1, C2, A. reflexivity.
  - intros Lo Ln subject. unfold pattern.
    change ("repo:" +:+ owner +:+ "/" +:+ name +:+ ":*")
      with ("repo:" +:+ owner +:+ "/" +:+ name +:+ ":" +:+ "*").
    rewrite <- !append_assoc. rewrite StringLike_prefix.
    + split; intros [g E]; exists g; rewrite E; now rewrite !append_assoc.
    + rewrite !literal_append, Lo, Ln. reflexivity.
Qed.

Lemma C8_trust_scoped_to_repository_witness :
  Iam.StringLike "repo:colbychaskell/clhaskell:*"
    "repo:colbychaskell/clhaskell:ref:refs/heads/main" = true <->
  exists gitRef,
    "repo:colbychaskell/clhaskell:ref:refs/heads/main" =
    "repo:colbychaskell/clhaskell:" +:+ gitRef.
Proof.
  apply (proj2 (proj2 (C8_trust_scoped_to_repository "GammaGitHubActionsRole"
                         Example.role_props))); reflexivity.
Defined.

Example main_branch_may_assume :
  Iam.StringLike "repo:colbychaskell/clhaskell:*"
    "repo:colbychaskell/clhaskell:ref:refs/heads/main" = true.
Proof. reflexivity. Qed.

Example other_repository_may_not_assume :
  Iam.StringLike "repo:colbychaskell/clhaskell:*"
    "repo:someone/clhaskell:ref:refs/heads/main" = false.
Proof. reflexivity. Qed.

(** * Further properties of the sources *)

(** ** The constructs of the DNS stack *)

Lemma dns_loop (stackId domain : string) (entries : list (string * string)) (sc : Scope) :
  snd (for_of entries
         (fun entry =>
            crossAccountRole <-
              declare ("CrossAccountDnsManagementRole-" +:+ fst entry)
                (Role (DnsStack.crossAccountRole "RootHostedZone" domain
                         (fst entry) (snd entry))) ;;
            declare ("CrossAccountRoleArn-" +:+ fst entry)
              (CfnOutput (Attribute crossAccountRole "roleArn")
                 "ARN of the cross-account DNS management role"
                 (Some (stackId +:+ "-CrossAccountRoleArn-" +:+ fst entry))) ;;;
            ret tt) sc) =
  {| children := children sc ++ flat_map (Deployment.stageConstructs stackId domain) entries;
     dependencies := dependencies sc;
     grants := grants sc |}.
Proof.
  revert sc. induction entries as [|e entries IH]; intros sc.
  - cbn. rewrite app_nil_r. now destruct sc.
  - cbn [for_of]. rewrite build_bind, IH. cbn. now rewrite <- !app_assoc.
Qed.

Lemma dns_scope (stackId : string) (props : DnsStack.DnsStackProps) :
  scope (DnsStack.new stackId props) =
  {| children :=
       {| id := "RootHostedZone";
          resource := PublicHostedZone (DnsStack.domainName props)
                        (Some RETAIN_ON_UPDATE_OR_DELETE) |} ::
       flat_map (Deployment.stageConstructs stackId (DnsStack.domainName props))
                (DnsStack.trustedAccounts props) ++
       [ {| id := "HostedZoneId";
            resource := CfnOutput (Attribute "RootHostedZone" "hostedZoneId")
                          "Hosted Zone ID" (Some (stackId +:+ "-HostedZoneId")) |};
         {| id := "HostedZoneName";
            resource := CfnOutput (Attribute "RootHostedZone" "zoneName")
                          "Hosted Zone Name" (Some (stackId +:+ "-HostedZoneName")) |};
         {| id := "NameServers";
            resource := CfnOutput (Attribute "RootHostedZone" "hostedZoneNameServers")
                          "Name servers for the hosted zone" None |} ];
     dependencies := [];
     grants := [] |}.
Proof.
  unfold DnsStack.new, DnsStack.constructor, Js.entries.
  cbn [scope]. repeat (rewrite build_bind; cbv beta).
  cbn [declare snd fst ret Build_Sequenced].
  rewrite (dns_loop stackId (DnsStack.domainName props)).
  cbn. now rewrite <- !app_assoc.
Qed.

Ltac clash n H :=
  apply (f_equal (String.get n)) in H; vm_compute in H; discriminate.

Lemma stage_ids (stackId domain : string) (entries : list (string * string)) :
  map id (flat_map (Deployment.stageConstructs stackId domain) entries) =
  flat_map (fun s => [ "CrossAccountDnsManagementRole-" +:+ s;
                       "CrossAccountRoleArn-" +:+ s ]) (map fst entries).
Proof.
  induction entries as [|e entries IH]; [reflexivity|].
  cbn [flat_map map]. rewrite map_app, IH. reflexivity.
Qed.

Lemma stage_ids_shape (names : list string) (x : string) :
  In x (flat_map (fun s => [ "CrossAccountDnsManagementRole-" +:+ s;
                             "CrossAccountRoleArn-" +:+ s ]) names) ->
  exists s, In s names /\
            (x = "CrossAccountDnsManagementRole-" +:+ s \/
             x = "CrossAccountRoleArn-" +:+ s).
Proof.
  intros H. apply in_flat_map in H as (s & Hs & [E | [E | []]]); eauto.
Qed.

Lemma stage_ids_NoDup (names : list string) :
  List.NoDup names <->
  List.NoDup (flat_map (fun s => [ "CrossAccountDnsManagementRole-" +:+ s;
                              "CrossAccountRoleArn-" +:+ s ]) names).
Proof.
  induction names as [|s names IH]; cbn [flat_map app].
  - split; constructor.
  - split.
    + intros N. inversion N as [|? ? Hs Hn]; subst.
      constructor; [|constructor; [|now apply IH]].
      * intros [E | H]; [clash 12 E|].
        apply stage_ids_shape in H as (s' & Hs' & [E | E]).
        -- apply append_cancel_l in E. now subst.
        -- clash 12 E.
      * intros H. apply stage_ids_shape in H as (s' & Hs' & [E | E]).
        -- clash 12 E.
        -- apply append_cancel_l in E. now subst.
    + intros N. inversion N as [|? ? H1 N1]; subst.
      inversion N1 as [|? ? H2 N2]; subst.
      constructor; [|now apply IH].
      intros Hs. apply H2. apply in_flat_map. exists s. split; [exact Hs|].
      right. left. reflexivity.
Qed.

(** X1. The constructs of the DNS stack are the root zone, then for each
    entry of the trusted-accounts mapping in order the role and the output
    of its ARN, then the three zone outputs; their ids are pairwise
    distinct exactly when the stage names of the mapping are. *)
Theorem X1_dns_stack_ids (stackId : string) (props : DnsStack.DnsStackProps) :
  let names := map fst (DnsStack.trustedAccounts props) in
  Construct.ids (scope (DnsStack.new stackId props)) =
    "RootHostedZone" ::
    flat_map (fun s => [ "CrossAccountDnsManagementRole-" +:+ s;
                         "CrossAccountRoleArn-" +:+ s ]) names ++
    ["HostedZoneId"; "HostedZoneName"; "NameServers"] /\
  (List.NoDup (Construct.ids (scope (DnsStack.new stackId props))) <-> List.NoDup names).
Proof.
  intros names.
  assert (E : Construct.ids (scope (DnsStack.new stackId props)) =
              "RootHostedZone" ::
              flat_map (fun s => [ "CrossAccountDnsManagementRole-" +:+ s;
                                   "CrossAccountRoleArn-" +:+ s ]) names ++
              ["HostedZoneId"; "HostedZoneName"; "NameServers"]).
  { unfold Construct.ids. rewrite dns_scope. cbn [children map].
    rewrite map_app, stage_ids. reflexivity. }
  split; [exact E|]. rewrite E. clear E.
  set (L := flat_map _ names).
  assert (C : forall x, In x L -> String.get 0 x = Some "C"%char).
  { intros x H. apply stage_ids_shape in H as (s & _ & [-> | ->]); reflexivity. }
  rewrite (stage_ids_NoDup names). fold L. clearbody L.
  split.
  - intros N. inversion N as [|? ? _ N1]; subst.
    exact (List.NoDup_app_remove_r _ _ N1).
  - intros N. constructor.
    + intros H. apply in_app_or in H as [H | H].
      * apply C in H. discriminate.
      * cbn in H. intuition discriminate.
    + clear -N C. induction L as [|x L IH].
      * cbn. repeat constructor; cbn; intuition discriminate.
      * inversion N as [|? ? Hx N1]; subst. cbn [app]. constructor.
        -- intros H. apply in_app_or in H as [H | H]; [contradiction|].
           pose proof (C x (or_introl eq_refl)) as Cx.
           cbn in H. destruct H as [<- | [<- | [<- | []]]]; discriminate.
        -- apply IH; [|exact N1]. intros y Hy. apply C. now right.
Qed.

(** X2. The DNS stack declares one role per entry of the mapping, in the
    mapping's order and without merging entries that share an account:
    each role is named after its stage and trusts its entry's account, and
    its only policy is the inline one that allows ListHostedZonesByName,
    GetHostedZone and ChangeResourceRecordSets; nothing is denied and no
    managed policy is attached. *)
Theorem X2_dns_roles_one_per_entry (stackId : string) (props : DnsStack.DnsStackProps) :
  let roles := DnsStack.roles (DnsStack.new stackId props) in
  map (fun r => (roleName r, Construct.assumedBy r)) roles =
    map (fun e => ("CrossAccountDnsManagementRole-" +:+ fst e, AccountPrincipal (snd e)))
        (DnsStack.trustedAccounts props) /\
  length roles = length (DnsStack.trustedAccounts props) /\
  (forall r, In r roles ->
     map fst (inlinePolicies r) = ["delegation"] /\
     map (fun st => (effect st, actions st)) (flat_map snd (inlinePolicies r)) =
       [ (ALLOW, ["route53:ListHostedZonesByName"]);
         (ALLOW, ["route53:GetHostedZone"]);
         (ALLOW, ["route53:ChangeResourceRecordSets"]) ] /\
     managedPolicies r = [] /\ policy r = []).
Proof.
  intros roles. unfold roles. rewrite DnsStack_roles.
  split; [now rewrite map_map|]. split; [apply length_map|].
  intros r H. apply in_map_iff in H as (e & <- & _). repeat split.
Qed.

(** X3. Whatever the mapping, the root zone of the DNS stack carries the
    domain name of the props and the removal policy
    RETAIN_ON_UPDATE_OR_DELETE, and it is the first construct declared. *)
Theorem X3_dns_root_zone_retained (stackId : string) (props : DnsStack.DnsStackProps) :
  let sc := scope (DnsStack.new stackId props) in
  Construct.find sc "RootHostedZone" =
    Some (PublicHostedZone (DnsStack.domainName props) (Some RETAIN_ON_UPDATE_OR_DELETE)) /\
  head (Construct.ids sc) = Some "RootHostedZone" /\
  dependencies sc = [] /\ grants sc = [].
Proof. intros sc. unfold sc. rewrite dns_scope. repeat split. Qed.

(** ** Well-formed website stacks *)

Lemma known_In (seen : list string) (r : string) :
  In r seen -> Graph.known seen r = true.
Proof.
  intros H. unfold Graph.known. apply existsb_exists. exists r.
  split; [exact H | apply String.eqb_refl].
Qed.

Ltac differ H :=
  apply String.eqb_eq in H; vm_compute in H; discriminate.

Ltac distinct_ids :=
  repeat constructor; cbn [In];
  let H := fresh in
  intros H; repeat (destruct H as [H | H]; [differ H|]); exact H.

Ltac all_known :=
  repeat (rewrite known_In; [|cbn [In]; tauto]); reflexivity.

(** X5. Whenever the website stack of src/infra/lib is built, the ids
    that its constructor gives to the constructs it declares are pairwise
    distinct whatever the stage name, the id DelegationRecord-<stage>
    being none of the fixed ones; each of these constructs refers only to
    constructs the constructor declared before it; and the dependency edge
    and the read grant of the constructor, from the bucket to the origin
    access identity, join constructs it declared. *)
Theorem X5_site_well_formed (stackId : string)
    (props : StaticWebsiteStack.StaticWebsiteStackProps) :
  let sc := scope (StaticWebsiteStack.new stackId props) in
  List.NoDup (Construct.ids sc) /\
  In ("DelegationRecord-" +:+ StaticWebsiteStack.stageName props) (Construct.ids sc) /\
  Graph.closed sc = true /\
  In ("SiteBucket", "OAI") (grants sc).
Proof.
  intros sc. split; [|split; [|split; [|now left]]].
  - unfold sc. rewrite site_ids. distinct_ids.
  - unfold sc. rewrite site_ids. cbn [In]. tauto.
  - unfold Graph.closed, sc. apply andb_true_intro. split.
    + cbn -[Graph.known String.append String.eqb]. all_known.
    + rewrite site_ids, site_dependencies.
      cbn -[Graph.known String.append String.eqb]. all_known.
Qed.

(** X6. The same holds of the stack of part_004, in both of its branches:
    the ids its constructor declares are pairwise distinct whatever the
    stage name, each declared construct refers only to constructs declared
    before it, and the constructor adds no dependency edge at all. *)
Theorem X6_importing_site_well_formed (stackId : string)
    (props : StaticWebsiteStack.StaticWebsiteStackProps) :
  let sc := scope (ImportingStaticWebsiteStack.new stackId props) in
  List.NoDup (Construct.ids sc) /\
  Graph.closed sc = true /\
  dependencies sc = [] /\
  In ("SiteBucket", "OAI") (grants sc).
Proof.
  intros sc. unfold sc, ImportingStaticWebsiteStack.new,
    ImportingStaticWebsiteStack.constructor.
  destruct (String.eqb (StaticWebsiteStack.stageName props) "prod").
  - split; [|split; [|split; [reflexivity | now left]]].
    + cbn -[String.append]. distinct_ids.
    + unfold Graph.closed. apply andb_true_intro. split.
      * cbn -[Graph.known String.append String.eqb]. all_known.
      * cbn -[Graph.known String.append String.eqb]. all_known.
  - split; [|split; [|split; [reflexivity | now left]]].
    + cbn -[String.append]. distinct_ids.
    + unfold Graph.closed. apply andb_true_intro. split.
      * cbn -[Graph.known String.append String.eqb]. all_known.
      * cbn -[Graph.known String.append String.eqb]. all_known.
Qed.

(** ** Orders of creation *)

Lemma position_here (x : string) (rest : list string) :
  Order.position x (x :: rest) = Some 0.
Proof. cbn [Order.position]. now rewrite String.eqb_refl. Qed.

Lemma position_skip (x y : string) (rest : list string) :
  String.eqb y x = false ->
  Order.position x (y :: rest) = S <$> Order.position x rest.
Proof. intros E. cbn [Order.position]. now rewrite E. Qed.

Ltac locate :=
  repeat (rewrite position_skip by (vm_compute; reflexivity));
  rewrite position_here; reflexivity.

(** X7. In the stack of src/infra/lib the certificate is declared before
    the delegation record it depends on, so the declaration order is not an
    evaluation order; an evaluation order exists nevertheless for every
    props, and in one of them the certificate is created before the second
    delegation record, subdomainDelegationRecord, on which it has no edge. *)
Theorem X7_site_orders (stackId : string)
    (props : StaticWebsiteStack.StaticWebsiteStackProps) :
  let sc := scope (StaticWebsiteStack.new stackId props) in
  let record := "DelegationRecord-" +:+ StaticWebsiteStack.stageName props in
  Order.before "SubdomainCertificate" record (Construct.ids sc) /\
  ~ Order.evaluation sc (Construct.ids sc) /\
  (exists order,
      Order.evaluation sc order /\
      Order.before "SubdomainCertificate" "subdomainDelegationRecord" order).
Proof.
  intros sc record.
  assert (B : Order.before "SubdomainCertificate" record (Construct.ids sc)).
  { unfold sc. rewrite site_ids. exists 4, 5. split; [locate|]. split; [locate | lia]. }
  split; [exact B|]. split.
  - intros [_ R]. apply (before_asymmetric _ _ _ B). apply R.
    unfold sc. rewrite site_dependencies. left. reflexivity.
  - exists [ "SiteBucket"; "DelegationRole"; "OAI"; "subdomainHostedZone";
             record; "SubdomainCertificate";
             "Distribution"; "AliasRecord"; "subdomainDelegationRecord";
             "WebsiteDeployment"; "DelegationRecord"; "BucketName";
             "DistributionId"; "DistributionDomainName"; "WebsiteUrl" ].
    split; [split|].
    + unfold sc. rewrite site_ids. do 4 apply perm_skip. apply perm_swap.
    + unfold sc. rewrite site_dependencies. intros dependent on [E | []].
      injection E as <- <-. exists 4, 5. split; [locate|]. split; [locate | lia].
    + exists 5, 8. split; [locate|]. split; [locate | lia].
Qed.

(** X8. The stack of part_004 orders nothing: its declaration order is an
    evaluation order, and in it the certificate bound to the distribution
    comes before the delegation record of the stage. *)
Theorem X8_importing_site_unordered (stackId : string)
    (props : StaticWebsiteStack.StaticWebsiteStackProps) :
  let sc := scope (ImportingStaticWebsiteStack.new stackId props) in
  let record := "DelegationRecord-" +:+ StaticWebsiteStack.stageName props in
  let certificate :=
    if String.eqb (StaticWebsiteStack.stageName props) "prod"
    then "WebsiteCertificate" else "ImportedCertificate" in
  Order.evaluation sc (Construct.ids sc) /\
  Website.distribution (ImportingStaticWebsiteStack.new stackId props) =
    Some (Website.distributionDomainNames (ImportingStaticWebsiteStack.new stackId props),
          certificate) /\
  Order.before certificate record (Construct.ids sc).
Proof.
  intros sc record certificate.
  unfold sc, certificate, Website.distributionDomainNames,
    ImportingStaticWebsiteStack.new, ImportingStaticWebsiteStack.constructor.
  destruct (String.eqb (StaticWebsiteStack.stageName props) "prod").
  - split; [split; [reflexivity | intros ? ? []]|]. split; [reflexivity|].
    exists 4, 5. cbn -[String.append Order.position].
    split; [locate|]. split; [locate | lia].
  - split; [split; [reflexivity | intros ? ? []]|]. split; [reflexivity|].
    exists 4, 5. cbn -[String.append Order.position].
    split; [locate|]. split; [locate | lia].
Qed.

(** X9. In the stack of part_004 only the prod stage creates a
    certificate, one for the stage's domain alone that is validated in the
    stage's own zone; every other stage creates none and imports the
    certificate with the fixed id in region us-east-1 of the DNS account. *)
Theorem X9_importing_site_certificate (stackId : string)
    (props : StaticWebsiteStack.StaticWebsiteStackProps) :
  let s := ImportingStaticWebsiteStack.new stackId props in
  let created :=
    List.filter (fun n => match resource n with
                          | Certificate _ _ _ => true
                          | _ => false
                          end) (children (scope s)) in
  if String.eqb (StaticWebsiteStack.stageName props) "prod"
  then created =
         [ {| id := "WebsiteCertificate";
              resource := Certificate (StaticWebsiteStack.domainName props) []
                            (fromDns (Some "subdomainHostedZone")) |} ] /\
       Construct.find (scope s) "ImportedCertificate" = None
  else created = [] /\
       Construct.find (scope s) "ImportedCertificate" =
         Some (CertificateFromArn
                 ("arn:aws:acm:us-east-1:" +:+ StaticWebsiteStack.dnsAccountId props +:+
                  ":certificate/cf8a651d-bc88-46b5-b84a-4b64b0cfc594")) /\
       Website.certificateNames s = None.
Proof.
  intros s created.
  unfold created, s, Website.certificateNames, Website.distribution,
    ImportingStaticWebsiteStack.new, ImportingStaticWebsiteStack.constructor.
  destruct (String.eqb (StaticWebsiteStack.stageName props) "prod");
    repeat split.
Qed.

(** ** Capitalizing a stage name *)

Lemma upper_ascii_idempotent (c : ascii) :
  Js.upper_ascii (Js.upper_ascii c) = Js.upper_ascii c.
Proof. destruct c as [[] [] [] [] [] [] [] []]; reflexivity. Qed.

Lemma upper_ascii_7bit (c : ascii) :
  Nat.ltb (nat_of_ascii c) 128 = true ->
  Nat.ltb (nat_of_ascii (Js.upper_ascii c)) 128 = true.
Proof. destruct c as [[] [] [] [] [] [] [] []]; trivial. Qed.

Lemma capitalize_cons (c : ascii) (s : string) :
  ImportingStaticWebsiteStack.capitalizeFirstLetter (String c s) =
  String (Js.upper_ascii c) s.
Proof. reflexivity. Qed.

(** X10. On a name of 7-bit characters capitalizeFirstLetter changes the
    first character at most: the length and everything after the first
    character are kept, the first character becomes its upper-case form,
    the result is of 7-bit characters again, and capitalizing twice is
    capitalizing once. *)
Theorem X10_capitalizeFirstLetter_shape (val : string) :
  Js.isAscii val = true ->
  let cap := ImportingStaticWebsiteStack.capitalizeFirstLetter in
  String.length (cap val) = String.length val /\
  Js.slice 1 (cap val) = Js.slice 1 val /\
  Js.charAt 0 (cap val) = Js.toUpperCase (Js.charAt 0 val) /\
  Js.isAscii (cap val) = true /\
  cap (cap val) = cap val.
Proof.
  intros A cap. unfold cap.
  destruct val as [|c s]; [repeat split|].
  rewrite !capitalize_cons, upper_ascii_idempotent.
  cbn [Js.isAscii] in A |- *. apply andb_true_iff in A. destruct A as [Ac As].
  rewrite (upper_ascii_7bit c Ac), As. repeat split.
Qed.

Lemma X10_capitalizeFirstLetter_shape_witness :
  String.length (ImportingStaticWebsiteStack.capitalizeFirstLetter "gamma") = 5 /\
  Js.charAt 0 (ImportingStaticWebsiteStack.capitalizeFirstLetter "gamma") = "G" /\
  Js.slice 1 (ImportingStaticWebsiteStack.capitalizeFirstLetter "gamma") = "amma".
Proof.
  destruct (X10_capitalizeFirstLetter_shape "gamma" eq_refl) as (L & S & C & _).
  split; [exact L|]. split; [exact C | exact S].
Defined.

(** ** What the entry points read *)

Lemma truthy_value (v : Js.value) :
  Js.truthy v = true -> exists s, v = Some s /\ s <> EmptyString.
Proof.
  destruct v as [s|]; [|discriminate]. cbn. intros H. exists s. split; [reflexivity|].
  intros ->. discriminate.
Qed.

(** X12. For a required field the context wins over the environment: the
    configuration holds the context's value when that is a non-empty
    string, and what the field's environment variable holds otherwise, an
    empty context value included. *)
Theorem X12_context_overrides_environment (i : App.Inputs) (field : string) :
  In field App.requiredEnvironmentVars ->
  App.get (App.config i) field =
    if Js.truthy (App.tryGetContext i field)
    then App.tryGetContext i field
    else App.fromEnvironment i field.
Proof. intros H. rewrite (config_get i field H). reflexivity. Qed.

Lemma X12_context_overrides_environment_witness :
  App.get (App.config Sample.both) "domainName" = Some "example.com".
Proof.
  rewrite (X12_context_overrides_environment Sample.both "domainName").
  - vm_compute. reflexivity.
  - do 3 right. left. reflexivity.
Defined.

Lemma first_missing_none (c : App.Config) :
  App.firstMissing c = None ->
  forall field, In field App.requiredEnvironmentVars ->
                exists s, App.get c field = Some s /\ s <> EmptyString.
Proof.
  intros F field H. pose proof (find_none _ _ F field H) as N. cbn beta in N.
  apply negb_false_iff in N. now apply truthy_value.
Qed.

(** The strings a valid configuration holds. *)
Lemma valid_config (i : App.Inputs) :
  App.firstMissing (App.config i) = None ->
  exists dns gamma prod domain owner name,
    App.dnsAccount (App.config i) = Some dns /\
    App.gammaAccount (App.config i) = Some gamma /\
    App.prodAccount (App.config i) = Some prod /\
    App.domainName (App.config i) = Some domain /\
    App.repoOwner (App.config i) = Some owner /\
    App.repoName (App.config i) = Some name /\
    dns <> EmptyString /\ gamma <> EmptyString /\ prod <> EmptyString /\
    domain <> EmptyString /\ owner <> EmptyString /\ name <> EmptyString.
Proof.
  intros F. pose proof (first_missing_none _ F) as V.
  destruct (V "dnsAccount") as (dns & E1 & N1); [cbn; tauto|].
  destruct (V "gammaAccount") as (gamma & E2 & N2); [cbn; tauto|].
  destruct (V "prodAccount") as (prod & E3 & N3); [cbn; tauto|].
  destruct (V "domainName") as (domain & E4 & N4); [cbn; tauto|].
  destruct (V "repoOwner") as (owner & E5 & N5); [cbn; tauto|].
  destruct (V "repoName") as (name & E6 & N6); [cbn; tauto|].
  exists dns, gamma, prod, domain, owner, name.
  change (App.get (App.config i) "dnsAccount") with (App.dnsAccount (App.config i)) in E1.
  change (App.get (App.config i) "gammaAccount") with (App.gammaAccount (App.config i)) in E2.
  change (App.get (App.config i) "prodAccount") with (App.prodAccount (App.config i)) in E3.
  change (App.get (App.config i) "domainName") with (App.domainName (App.config i)) in E4.
  change (App.get (App.config i) "repoOwner") with (App.repoOwner (App.config i)) in E5.
  change (App.get (App.config i) "repoName") with (App.repoName (App.config i)) in E6.
  repeat split; assumption.
Qed.

Lemma region_given (i : App.Inputs) :
  exists r, App.region (App.config i) = Some r /\ r <> EmptyString /\
            r = match App.tryGetContext i "region" with
                | Some c => if String.eqb c EmptyString then "us-east-1" else c
                | None => "us-east-1"
                end.
Proof.
  cbn [App.config App.region]. unfold Js.or, Js.truthy.
  destruct (App.tryGetContext i "region") as [c|].
  - destruct (String.eqb c EmptyString) eqn:E; cbn [negb].
    + exists "us-east-1". repeat split. discriminate.
    + exists c. repeat split. intros ->. discriminate.
  - exists "us-east-1". repeat split. discriminate.
Qed.

Lemma calls_permutation (i : App.Inputs) :
  App.firstMissing (App.config i) = None ->
  Permutation (App.calls (App.config i)) (NamedApp.calls (App.config i)).
Proof.
  intros F.
  destruct (valid_config i F)
    as (dns & gamma & prod & domain & owner & name &
        E1 & E2 & E3 & E4 & E5 & E6 & _).
  unfold App.calls, NamedApp.calls, App.websiteProps, App.stageAccounts.
  rewrite E2, E3.
  cbn [App.str Js.interpolate Js.index Js.toLowerCase String.eqb flat_map App.stages app].
  do 2 apply perm_skip. apply perm_swap.
Qed.

Lemma accepted_permutation (library : App.Library) (ds ds' : list App.StackDecl) :
  Permutation ds ds' -> App.accepted library ds -> App.accepted library ds'.
Proof.
  intros P A d H. apply A. apply (Permutation_in d (Permutation_sym P) H).
Qed.

Lemma run_returned (library : App.Library) (i : App.Inputs)
    (stacks : list App.StackDecl) :
  App.run library i = (App.Returned tt, stacks) ->
  App.firstMissing (App.config i) = None /\
  stacks = snd (App.run library i) /\
  NamedApp.run library i = (App.Returned tt, snd (NamedApp.run library i)).
Proof.
  intros R. destruct (run_returned_calls _ _ _ R) as (F & _ & A).
  split; [exact F|]. split; [now rewrite R|].
  rewrite named_run_construct, F.
  rewrite construct_accepted; [reflexivity|].
  apply (accepted_permutation library _ _ (calls_permutation i F) A).
Qed.

Lemma named_run_returned (library : App.Library) (i : App.Inputs)
    (stacks : list App.StackDecl) :
  NamedApp.run library i = (App.Returned tt, stacks) ->
  App.run library i = (App.Returned tt, snd (App.run library i)).
Proof.
  intros R. destruct (named_run_returned_calls _ _ _ R) as (F & _ & A).
  rewrite run_construct, F.
  rewrite construct_accepted; [reflexivity|].
  apply (accepted_permutation library _ _ (Permutation_sym (calls_permutation i F)) A).
Qed.

Lemma app_stacks (library : App.Library) (i : App.Inputs)
    (stacks : list App.StackDecl) :
  App.run library i = (App.Returned tt, stacks) ->
  let c := App.config i in
  App.run library i =
  (App.Returned tt,
   [ App.NewDnsStack "DnsStack"
       {| DnsStack.base := App.envOf (App.dnsAccount c) (App.region c);
          DnsStack.domainName := App.str (App.domainName c);
          DnsStack.trustedAccounts := App.stageAccounts c |};
     App.NewStaticWebsiteStack "GammaStaticWebsiteStack" (App.websiteProps c "gamma");
     App.NewGitHubActionsRoleStack "GammaGitHubActionsRole"
       {| App.role_base := App.envOf (Some (App.str (App.gammaAccount c))) (App.region c);
          App.role_repoOwner := App.str (App.repoOwner c);
          App.role_repoName := App.str (App.repoName c) |};
     App.NewStaticWebsiteStack "ProdStaticWebsiteStack" (App.websiteProps c "prod");
     App.NewGitHubActionsRoleStack "ProdGitHubActionsRole"
       {| App.role_base := App.envOf (Some (App.str (App.prodAccount c))) (App.region c);
          App.role_repoOwner := App.str (App.repoOwner c);
          App.role_repoName := App.str (App.repoName c) |} ]).
Proof.
  intros R c. rewrite R.
  destruct (run_returned_calls _ _ _ R) as (_ & -> & _). reflexivity.
Qed.

Lemma named_app_stacks (library : App.Library) (i : App.Inputs)
    (stacks : list App.StackDecl) :
  App.run library i = (App.Returned tt, stacks) ->
  let c := App.config i in
  NamedApp.run library i =
  (App.Returned tt,
   [ App.NewDnsStack "DnsStack"
       {| DnsStack.base := App.envOf (App.dnsAccount c) (App.region c);
          DnsStack.domainName := App.str (App.domainName c);
          DnsStack.trustedAccounts := App.stageAccounts c |};
     App.NewStaticWebsiteStack "GammaStaticWebsiteStack"
       {| StaticWebsiteStack.base := App.envOf (App.gammaAccount c) (App.region c);
          StaticWebsiteStack.dnsAccountId := App.str (App.dnsAccount c);
          StaticWebsiteStack.rootHostedZoneName := App.str (App.domainName c);
          StaticWebsiteStack.domainName := "gamma." +:+ App.str (App.domainName c);
          StaticWebsiteStack.stageName := "gamma" |};
     App.NewStaticWebsiteStack "ProdStaticWebsiteStack"
       {| StaticWebsiteStack.base := App.envOf (App.prodAccount c) (App.region c);
          StaticWebsiteStack.dnsAccountId := App.str (App.dnsAccount c);
          StaticWebsiteStack.rootHostedZoneName := App.str (App.domainName c);
          StaticWebsiteStack.domainName := "prod." +:+ App.str (App.domainName c);
          StaticWebsiteStack.stageName := "prod" |};
     App.NewGitHubActionsRoleStack "GammaGitHubActionsRole"
       {| App.role_base := App.envOf (App.gammaAccount c) (App.region c);
          App.role_repoOwner := App.str (App.repoOwner c);
          App.role_repoName := App.str (App.repoName c) |};
     App.NewGitHubActionsRoleStack "ProdGitHubActionsRole"
       {| App.role_base := App.envOf (App.prodAccount c) (App.region c);
          App.role_repoOwner := App.str (App.repoOwner c);
          App.role_repoName := App.str (App.repoName c) |} ]).
Proof.
  intros R c. destruct (run_returned _ _ _ R) as (_ & _ & N).
  rewrite N. destruct (named_run_returned_calls _ _ _ N) as (_ & -> & _). reflexivity.
Qed.

Ltac each_stack H :=
  repeat (destruct H as [<- | H]; [reflexivity|]); destruct H.

(** X13. Every stack of a deployment, from either entry point, is given
    one and the same region: the region of the context when that is a
    non-empty string and us-east-1 otherwise.  The environment has no say
    in it. *)
Theorem X13_single_region (library : App.Library) (i : App.Inputs)
    (stacks : list App.StackDecl) :
  App.run library i = (App.Returned tt, stacks) ->
  exists r,
    r <> EmptyString /\
    r = match App.tryGetContext i "region" with
        | Some c => if String.eqb c EmptyString then "us-east-1" else c
        | None => "us-east-1"
        end /\
    (forall d, In d stacks -> Deployment.regionOf d = Some r) /\
    (forall d, In d (snd (NamedApp.run library i)) -> Deployment.regionOf d = Some r).
Proof.
  intros R. destruct (run_returned library i stacks R) as (F & -> & _).
  destruct (region_given i) as (r & E & N & D). exists r.
  split; [exact N|]. split; [exact D|].
  rewrite (app_stacks library i _ R), (named_app_stacks library i _ R). cbn [snd].
  split; intros d H; rewrite <- E; each_stack H.
Qed.

Lemma X13_single_region_witness :
  exists r,
    r <> EmptyString /\
    r = "us-east-1" /\
    (forall d, In d (snd (App.run Checks.library Example.inputs)) ->
               Deployment.regionOf d = Some r) /\
    (forall d, In d (snd (NamedApp.run Checks.library Example.inputs)) ->
               Deployment.regionOf d = Some r).
Proof.
  apply (X13_single_region Checks.library Example.inputs
           (snd (App.run Checks.library Example.inputs))).
  vm_compute. reflexivity.
Defined.

(** X14. In a deployment that does not throw, the DNS stack targets the
    DNS account and, for gamma and for prod, exactly one website stack and
    one role stack are instantiated, each targeting that stage's account;
    the accounts are the non-empty configured values.  The two entry
    points differ in the order of the stacks only. *)
Theorem X14_stacks_target_stage_accounts (library : App.Library) (i : App.Inputs)
    (stacks : list App.StackDecl) :
  App.run library i = (App.Returned tt, stacks) ->
  exists dns gamma prod,
    App.get (App.config i) "dnsAccount" = Some dns /\
    App.get (App.config i) "gammaAccount" = Some gamma /\
    App.get (App.config i) "prodAccount" = Some prod /\
    dns <> EmptyString /\ gamma <> EmptyString /\ prod <> EmptyString /\
    map (fun d => (App.declId d, Deployment.accountOf d)) stacks =
      [ ("DnsStack", Some dns);
        ("GammaStaticWebsiteStack", Some gamma);
        ("GammaGitHubActionsRole", Some gamma);
        ("ProdStaticWebsiteStack", Some prod);
        ("ProdGitHubActionsRole", Some prod) ] /\
    map (fun d => (App.declId d, Deployment.accountOf d)) (snd (NamedApp.run library i)) =
      [ ("DnsStack", Some dns);
        ("GammaStaticWebsiteStack", Some gamma);
        ("ProdStaticWebsiteStack", Some prod);
        ("GammaGitHubActionsRole", Some gamma);
        ("ProdGitHubActionsRole", Some prod) ].
Proof.
  intros R. destruct (run_returned library i stacks R) as (F & -> & _).
  destruct (valid_config i F)
    as (dns & gamma & prod & domain & owner & name &
        E1 & E2 & E3 & E4 & E5 & E6 & N1 & N2 & N3 & _).
  exists dns, gamma, prod.
  change (App.get (App.config i) "dnsAccount") with (App.dnsAccount (App.config i)).
  change (App.get (App.config i) "gammaAccount") with (App.gammaAccount (App.config i)).
  change (App.get (App.config i) "prodAccount") with (App.prodAccount (App.config i)).
  do 6 (split; [assumption|]).
  rewrite (app_stacks library i _ R), (named_app_stacks library i _ R). cbn [snd].
  unfold App.websiteProps, App.stageAccounts. rewrite E1, E2, E3. split; reflexivity.
Qed.

Lemma X14_stacks_target_stage_accounts_witness :
  exists dns gamma prod,
    App.get (App.config Example.inputs) "dnsAccount" = Some dns /\
    App.get (App.config Example.inputs) "gammaAccount" = Some gamma /\
    App.get (App.config Example.inputs) "prodAccount" = Some prod /\
    dns <> EmptyString /\ gamma <> EmptyString /\ prod <> EmptyString /\
    map (fun d => (App.declId d, Deployment.accountOf d))
        (snd (App.run Checks.library Example.inputs)) =
      [ ("DnsStack", Some dns);
        ("GammaStaticWebsiteStack", Some gamma);
        ("GammaGitHubActionsRole", Some gamma);
        ("ProdStaticWebsiteStack", Some prod);
        ("ProdGitHubActionsRole", Some prod) ] /\
    map (fun d => (App.declId d, Deployment.accountOf d))
        (snd (NamedApp.run Checks.library Example.inputs)) =
      [ ("DnsStack", Some dns);
        ("GammaStaticWebsiteStack", Some gamma);
        ("ProdStaticWebsiteStack", Some prod);
        ("GammaGitHubActionsRole", Some gamma);
        ("ProdGitHubActionsRole", Some prod) ].
Proof.
  apply (X14_stacks_target_stage_accounts Checks.library Example.inputs
           (snd (App.run Checks.library Example.inputs))).
  vm_compute. reflexivity.
Defined.

(** X15. The two entry points agree: on the same inputs they throw the
    same missing-configuration error, one returns exactly when the other
    does, and then the stacks they have instantiated are the same up to
    their order. *)
Theorem X15_entry_points_agree (library : App.Library) (i : App.Inputs) :
  (forall field,
      App.firstMissing (App.config i) = Some field ->
      App.run library i = (App.Thrown (App.missing field), []) /\
      NamedApp.run library i = (App.Thrown (App.missing field), [])) /\
  (fst (App.run library i) = App.Returned tt <->
   fst (NamedApp.run library i) = App.Returned tt) /\
  (fst (App.run library i) = App.Returned tt ->
   Permutation (snd (App.run library i)) (snd (NamedApp.run library i))).
Proof.
  split; [|split].
  - intros field F. rewrite run_construct, named_run_construct, F.
    split; reflexivity.
  - split; intros R.
    + destruct (run_returned library i (snd (App.run library i))) as (_ & _ & N).
      * rewrite <- R. apply surjective_pairing.
      * now rewrite N.
    + rewrite (named_run_returned library i (snd (NamedApp.run library i))).
      * reflexivity.
      * rewrite <- R. apply surjective_pairing.
  - intros R.
    assert (R' : App.run library i = (App.Returned tt, snd (App.run library i)))
      by (rewrite <- R; apply surjective_pairing).
    destruct (run_returned library i _ R') as (F & _ & N).
    destruct (run_returned_calls _ _ _ R') as (_ & -> & _).
    destruct (named_run_returned_calls _ _ _ N) as (_ & -> & _).
    now apply calls_permutation.
Qed.

(** X16. A deployment that does not throw is made of the configured
    values themselves, each a non-empty string: the DNS
    stack has the configured domain and trusts gamma and prod with their
    accounts, each website stack has the DNS account, the root domain, the
    domain <stage>.<root> and its stage name, and each role stack has the
    configured repository owner and name. *)
Theorem X16_valid_deployment (library : App.Library) (i : App.Inputs)
    (stacks : list App.StackDecl) :
  App.run library i = (App.Returned tt, stacks) ->
  exists dns gamma prod domain owner name,
    App.get (App.config i) "dnsAccount" = Some dns /\
    App.get (App.config i) "gammaAccount" = Some gamma /\
    App.get (App.config i) "prodAccount" = Some prod /\
    App.get (App.config i) "domainName" = Some domain /\
    App.get (App.config i) "repoOwner" = Some owner /\
    App.get (App.config i) "repoName" = Some name /\
    dns <> EmptyString /\ gamma <> EmptyString /\ prod <> EmptyString /\
    domain <> EmptyString /\ owner <> EmptyString /\ name <> EmptyString /\
    let region := App.region (App.config i) in
    stacks =
      [ App.NewDnsStack "DnsStack"
          {| DnsStack.base := App.envOf (Some dns) region;
             DnsStack.domainName := domain;
             DnsStack.trustedAccounts := [("gamma", gamma); ("prod", prod)] |};
        App.NewStaticWebsiteStack "GammaStaticWebsiteStack"
          {| StaticWebsiteStack.base := App.envOf (Some gamma) region;
             StaticWebsiteStack.dnsAccountId := dns;
             StaticWebsiteStack.rootHostedZoneName := domain;
             StaticWebsiteStack.domainName := "gamma." +:+ domain;
             StaticWebsiteStack.stageName := "gamma" |};
        App.NewGitHubActionsRoleStack "GammaGitHubActionsRole"
          {| App.role_base := App.envOf (Some gamma) region;
             App.role_repoOwner := owner;
             App.role_repoName := name |};
        App.NewStaticWebsiteStack "ProdStaticWebsiteStack"
          {| StaticWebsiteStack.base := App.envOf (Some prod) region;
             StaticWebsiteStack.dnsAccountId := dns;
             StaticWebsiteStack.rootHostedZoneName := domain;
             StaticWebsiteStack.domainName := "prod." +:+ domain;
             StaticWebsiteStack.stageName := "prod" |};
        App.NewGitHubActionsRoleStack "ProdGitHubActionsRole"
          {| App.role_base := App.envOf (Some prod) region;
             App.role_repoOwner := owner;
             App.role_repoName := name |} ].
Proof.
  intros R. destruct (run_returned library i stacks R) as (F & -> & _).
  destruct (valid_config i F)
    as (dns & gamma & prod & domain & owner & name &
        E1 & E2 & E3 & E4 & E5 & E6 & N).
  exists dns, gamma, prod, domain, owner, name.
  change (App.get (App.config i) "dnsAccount") with (App.dnsAccount (App.config i)).
  change (App.get (App.config i) "gammaAccount") with (App.gammaAccount (App.config i)).
  change (App.get (App.config i) "prodAccount") with (App.prodAccount (App.config i)).
  change (App.get (App.config i) "domainName") with (App.domainName (App.config i)).
  change (App.get (App.config i) "repoOwner") with (App.repoOwner (App.config i)).
  change (App.get (App.config i) "repoName") with (App.repoName (App.config i)).
  do 6 (split; [assumption|]).
  destruct N as (N1 & N2 & N3 & N4 & N5 & N6). do 6 (split; [assumption|]).
  rewrite (app_stacks library i _ R). cbn [snd].
  unfold App.websiteProps, App.stageAccounts. rewrite E1, E2, E3, E4, E5, E6.
  reflexivity.
Qed.

Lemma X16_valid_deployment_witness :
  exists dns gamma prod domain owner name,
    App.get (App.config Sample.both) "dnsAccount" = Some dns /\
    App.get (App.config Sample.both) "gammaAccount" = Some gamma /\
    App.get (App.config Sample.both) "prodAccount" = Some prod /\
    App.get (App.config Sample.both) "domainName" = Some domain /\
    App.get (App.config Sample.both) "repoOwner" = Some owner /\
    App.get (App.config Sample.both) "repoName" = Some name /\
    dns <> EmptyString /\ gamma <> EmptyString /\ prod <> EmptyString /\
    domain <> EmptyString /\ owner <> EmptyString /\ name <> EmptyString /\
    map App.declId (snd (App.run Checks.library Sample.both)) =
      map App.declId
        [ App.NewDnsStack "DnsStack"
            {| DnsStack.base := App.envOf (Some dns) (App.region (App.config Sample.both));
               DnsStack.domainName := domain;
               DnsStack.trustedAccounts := [("gamma", gamma); ("prod", prod)] |};
          App.NewStaticWebsiteStack "GammaStaticWebsiteStack"
            (App.websiteProps (App.config Sample.both) "gamma");
          App.NewGitHubActionsRoleStack "GammaGitHubActionsRole"
            {| App.role_base := App.envOf (Some gamma) (App.region (App.config Sample.both));
               App.role_repoOwner := owner;
               App.role_repoName := name |};
          App.NewStaticWebsiteStack "ProdStaticWebsiteStack"
            (App.websiteProps (App.config Sample.both) "prod");
          App.NewGitHubActionsRoleStack "ProdGitHubActionsRole"
            {| App.role_base := App.envOf (Some prod) (App.region (App.config Sample.both));
               App.role_repoOwner := owner;
               App.role_repoName := name |} ].
Proof.
  destruct (X16_valid_deployment Checks.library Sample.both
              (snd (App.run Checks.library Sample.both)))
    as (dns & gamma & prod & domain & owner & name & H).
  - vm_compute. reflexivity.
  - exists dns, gamma, prod, domain, owner, name.
    destruct H as (E1 & E2 & E3 & E4 & E5 & E6 & N1 & N2 & N3 & N4 & N5 & N6 & S).
    do 12 (split; [assumption|]). cbv zeta in S. rewrite S. reflexivity.
Defined.

Lemma config_setenv (i : App.Inputs) (name value : string) :
  ~ In name (map snd App.environmentVariables) ->
  App.config (Deployment.setenv name value i) = App.config i.
Proof.
  intros N. unfold App.config, App.process_env, App.tryGetContext, Deployment.setenv.
  cbn [App.context App.environment].
  rewrite !lookup_insert_ne; [reflexivity|..];
    intros ->; apply N; cbn; tauto.
Qed.

(** X17. The error message tells to set the environment variable named by
    the upper-cased field (DOMAINNAME for domainName), but no entry point
    reads a variable of that name: setting it changes nothing, neither the
    configuration nor the outcome, so a missing field stays missing. *)
Theorem X17_named_variable_is_not_read (library : App.Library) (i : App.Inputs)
    (field value : string) :
  In field App.requiredEnvironmentVars ->
  let i' := Deployment.setenv (Js.toUpperCase field) value i in
  ~ In (Js.toUpperCase field) (map snd App.environmentVariables) /\
  App.config i' = App.config i /\
  App.run library i' = App.run library i /\
  NamedApp.run library i' = NamedApp.run library i.
Proof.
  intros H i'.
  assert (N : ~ In (Js.toUpperCase field) (map snd App.environmentVariables)).
  { repeat (destruct H as [<- | H]; [cbn; intuition discriminate|]). destruct H. }
  split; [exact N|].
  assert (E : App.config i' = App.config i) by now apply config_setenv.
  split; [exact E|].
  unfold App.run, NamedApp.run, App.main, NamedApp.main. rewrite E. split; reflexivity.
Qed.

Lemma X17_named_variable_is_not_read_witness :
  App.run Checks.library
    (Deployment.setenv "DOMAINNAME" "example.com" Example.inputs_without_domain) =
  App.run Checks.library Example.inputs_without_domain.
Proof.
  apply (X17_named_variable_is_not_read Checks.library Example.inputs_without_domain
           "domainName" "example.com").
  do 3 right. left. reflexivity.
Defined.

(** ** The deploy role after the constructor has run *)






(** ** How the stacks fit together *)

Lemma site_delegation_role (stackId : string)
    (props : StaticWebsiteStack.StaticWebsiteStackProps) :
  Construct.find (scope (StaticWebsiteStack.new stackId props)) "DelegationRole" =
  Some (RoleFromArn (StaticWebsiteStack.delegationRoleArn props)).
Proof. reflexivity. Qed.



Lemma returned_dns (library : App.Library) (i : App.Inputs)
    (stacks : list App.StackDecl) :
  App.run library i = (App.Returned tt, stacks) ->
  exists dns gamma prod domain,
    dns <> EmptyString /\ gamma <> EmptyString /\ prod <> EmptyString /\
    domain <> EmptyString /\
    App.str (App.domainName (App.config i)) = domain /\
    Deployment.dns stacks =
      Some {| DnsStack.base := App.envOf (Some dns) (App.region (App.config i));
              DnsStack.domainName := domain;
              DnsStack.trustedAccounts := [("gamma", gamma); ("prod", prod)] |} /\
    App.websites stacks =
      [ (App.websiteProps (App.config i) "gamma",
         StaticWebsiteStack.new "GammaStaticWebsiteStack"
           (App.websiteProps (App.config i) "gamma"));
        (App.websiteProps (App.config i) "prod",
         StaticWebsiteStack.new "ProdStaticWebsiteStack"
           (App.websiteProps (App.config i) "prod")) ] /\
    App.websiteProps (App.config i) "gamma" =
      {| StaticWebsiteStack.base := App.envOf (Some gamma) (App.region (App.config i));
         StaticWebsiteStack.dnsAccountId := dns;
         StaticWebsiteStack.rootHostedZoneName := domain;
         StaticWebsiteStack.domainName := "gamma." +:+ domain;
         StaticWebsiteStack.stageName := "gamma" |} /\
    App.websiteProps (App.config i) "prod" =
      {| StaticWebsiteStack.base := App.envOf (Some prod) (App.region (App.config i));
         StaticWebsiteStack.dnsAccountId := dns;
         StaticWebsiteStack.rootHostedZoneName := domain;
         StaticWebsiteStack.domainName := "prod." +:+ domain;
         StaticWebsiteStack.stageName := "prod" |}.
Proof.
  intros R. pose proof (run_websites library i stacks R) as W.
  destruct (run_returned library i stacks R) as (F & -> & _).
  destruct (valid_config i F)
    as (dns & gamma & prod & domain & owner & name &
        E1 & E2 & E3 & E4 & E5 & E6 & N1 & N2 & N3 & N4 & _).
  exists dns, gamma, prod, domain.
  do 4 (split; [assumption|]).
  split; [now rewrite E4|]. split; [|split; [exact W|]].
  - rewrite (app_stacks library i _ R). cbn [snd Deployment.dns].
    unfold App.stageAccounts. now rewrite E1, E2, E3, E4.
  - unfold App.websiteProps, App.stageAccounts. rewrite E1, E2, E3, E4. split; reflexivity.
Qed.

(** X20. In a deployment of src/infra that does not throw, every website
    stack finds its delegation role in the DNS stack of the same
    deployment: the DNS stack declares a role of the name the website
    stack imports, in the account the import names, and that role trusts
    exactly the account the website stack is deployed to. *)
Theorem X20_delegation_roles_wired (library : App.Library) (i : App.Inputs)
    (stacks : list App.StackDecl) :
  App.run library i = (App.Returned tt, stacks) ->
  exists dns,
    Deployment.dns stacks = Some dns /\
    forall props s,
      In (props, s) (App.websites stacks) ->
      exists k role imported account,
        nth_error (DnsStack.roles (DnsStack.new "DnsStack" dns)) k = Some role /\
        Construct.find (scope s) "DelegationRole" = Some (RoleFromArn imported) /\
        Cdk.arn_resourceName imported = roleName role /\
        Cdk.env_field Cdk.account (DnsStack.base dns) = Some (Cdk.arn_account imported) /\
        Cdk.env_field Cdk.account (StaticWebsiteStack.base props) = Some account /\
        Construct.assumedBy role = AccountPrincipal account.
Proof.
  intros R.
  destruct (returned_dns library i stacks R)
    as (dns & gamma & prod & domain & _ & _ & _ & _ & _ & D & W & G & P).
  eexists. split; [exact D|]. rewrite W, G, P.
  intros props s [E | [E | []]]; injection E as <- <-.
  - exists 0. eexists. eexists. eexists.
    split; [apply DnsStack_role_at; reflexivity|].
    split; [apply site_delegation_role|]. repeat split.
  - exists 1. eexists. eexists. eexists.
    split; [apply DnsStack_role_at; reflexivity|].
    split; [apply site_delegation_role|]. repeat split.
Qed.

Lemma X20_delegation_roles_wired_witness :
  exists dns,
    Deployment.dns (snd (App.run Checks.library Example.inputs)) = Some dns /\
    forall props s,
      In (props, s) (App.websites (snd (App.run Checks.library Example.inputs))) ->
      exists k role imported account,
        nth_error (DnsStack.roles (DnsStack.new "DnsStack" dns)) k = Some role /\
        Construct.find (scope s) "DelegationRole" = Some (RoleFromArn imported) /\
        Cdk.arn_resourceName imported = roleName role /\
        Cdk.env_field Cdk.account (DnsStack.base dns) = Some (Cdk.arn_account imported) /\
        Cdk.env_field Cdk.account (StaticWebsiteStack.base props) = Some account /\
        Construct.assumedBy role = AccountPrincipal account.
Proof.
  apply (X20_delegation_roles_wired Checks.library Example.inputs
           (snd (App.run Checks.library Example.inputs))).
  vm_compute. reflexivity.
Defined.

Lemma suffix_length (t r : string) :
  Js.ends_with t r -> String.length t <= String.length r.
Proof. intros [u ->]. rewrite length_append. lia. Qed.

Lemma not_matched (s d name : string) :
  Iam.literal s = true -> Iam.literal d = true ->
  ~ Js.ends_with (s +:+ "." +:+ d) name ->
  Iam.StringLike (DnsStack.recordNamePattern s d) name = false.
Proof.
  intros Ls Ld N. destruct (Iam.StringLike _ name) eqn:M; [|reflexivity].
  apply pattern_matches in M; [contradiction | assumption..].
Qed.

Lemma gamma_prod_apart :
  ~ Js.ends_with "gamma" "prod" /\ ~ Js.ends_with "prod" "gamma".
Proof.
  split.
  - intros H. apply suffix_length in H. cbn in H. lia.
  - intros [u E]. pose proof (f_equal String.length E) as L.
    rewrite length_append in L. cbn in L.
    destruct u as [|a [|b u]]; cbn in L; try lia.
    rewrite append_cons, append_nil_l in E. discriminate.
Qed.

(** X21. In a deployment of src/infra that does not throw and whose domain
    holds no wildcard character, the record-name pattern of each stage's
    role matches the name of that stage's own zone and does not match the
    name of the other stage's zone; and neither pattern matches the bare
    root domain or www.<root>. *)
Theorem X21_stage_patterns_fit_zones (library : App.Library) (i : App.Inputs)
    (stacks : list App.StackDecl) :
  App.run library i = (App.Returned tt, stacks) ->
  Iam.literal (App.str (App.domainName (App.config i))) = true ->
  exists dns gammaRole prodRole gammaPattern prodPattern,
    Deployment.dns stacks = Some dns /\
    DnsStack.roles (DnsStack.new "DnsStack" dns) = [gammaRole; prodRole] /\
    DnsStack.changePatterns gammaRole = [gammaPattern] /\
    DnsStack.changePatterns prodRole = [prodPattern] /\
    map (fun w => StaticWebsiteStack.domainName (fst w)) (App.websites stacks) =
      ["gamma." +:+ DnsStack.domainName dns; "prod." +:+ DnsStack.domainName dns] /\
    Iam.StringLike gammaPattern ("gamma." +:+ DnsStack.domainName dns) = true /\
    Iam.StringLike prodPattern ("prod." +:+ DnsStack.domainName dns) = true /\
    Iam.StringLike gammaPattern ("prod." +:+ DnsStack.domainName dns) = false /\
    Iam.StringLike prodPattern ("gamma." +:+ DnsStack.domainName dns) = false /\
    (forall p, In p [gammaPattern; prodPattern] ->
       Iam.StringLike p (DnsStack.domainName dns) = false /\
       Iam.StringLike p ("www." +:+ DnsStack.domainName dns) = false).
Proof.
  intros R L.
  destruct (returned_dns library i stacks R)
    as (dns & gamma & prod & domain & _ & _ & _ & _ & Ed & D & W & G & P).
  rewrite Ed in L. destruct gamma_prod_apart as [GP PG].
  eexists. eexists. eexists. eexists. eexists.
  split; [exact D|]. rewrite DnsStack_roles. cbn [DnsStack.trustedAccounts map fst snd
                                                   DnsStack.domainName].
  split; [reflexivity|]. split; [reflexivity|]. split; [reflexivity|].
  split; [rewrite W, G, P; reflexivity|].
  split; [apply pattern_matches; [reflexivity | exact L | apply suffix_refl]|].
  split; [apply pattern_matches; [reflexivity | exact L | apply suffix_refl]|].
  split.
  { apply not_matched; [reflexivity | exact L|].
    intros H. apply (suffix_cancel "gamma" "prod" ("." +:+ domain)) in H. contradiction. }
  split.
  { apply not_matched; [reflexivity | exact L|].
    intros H. apply (suffix_cancel "prod" "gamma" ("." +:+ domain)) in H. contradiction. }
  intros p [<- | [<- | []]]; split; apply not_matched;
    try reflexivity; try exact L;
    intros H; apply suffix_length in H;
    rewrite ?length_append in H; cbn in H; lia.
Qed.

Lemma X21_stage_patterns_fit_zones_witness :
  exists dns gammaRole prodRole gammaPattern prodPattern,
    Deployment.dns (snd (App.run Checks.library Example.inputs)) = Some dns /\
    DnsStack.roles (DnsStack.new "DnsStack" dns) = [gammaRole; prodRole] /\
    DnsStack.changePatterns gammaRole = [gammaPattern] /\
    DnsStack.changePatterns prodRole = [prodPattern] /\
    map (fun w => StaticWebsiteStack.domainName (fst w))
        (App.websites (snd (App.run Checks.library Example.inputs))) =
      ["gamma." +:+ DnsStack.domainName dns; "prod." +:+ DnsStack.domainName dns] /\
    Iam.StringLike gammaPattern ("gamma." +:+ DnsStack.domainName dns) = true /\
    Iam.StringLike prodPattern ("prod." +:+ DnsStack.domainName dns) = true /\
    Iam.StringLike gammaPattern ("prod." +:+ DnsStack.domainName dns) = false /\
    Iam.StringLike prodPattern ("gamma." +:+ DnsStack.domainName dns) = false /\
    (forall p, In p [gammaPattern; prodPattern] ->
       Iam.StringLike p (DnsStack.domainName dns) = false /\
       Iam.StringLike p ("www." +:+ DnsStack.domainName dns) = false).
Proof.
  apply (X21_stage_patterns_fit_zones Checks.library Example.inputs
           (snd (App.run Checks.library Example.inputs)));
    vm_compute; reflexivity.
Defined.

(** X22. In a deployment of src/infra that does not throw, the buckets of
    the two stages are named gamma-website-<gamma account> and
    prod-website-<prod account>, and the two names differ even when both
    stages use one account. *)
Theorem X22_bucket_names_differ (library : App.Library) (i : App.Inputs)
    (stacks : list App.StackDecl) :
  App.run library i = (App.Returned tt, stacks) ->
  exists gamma prod,
    App.get (App.config i) "gammaAccount" = Some gamma /\
    App.get (App.config i) "prodAccount" = Some prod /\
    map (fun w => Deployment.bucketName (snd w)) (App.websites stacks) =
      [Some ("gamma-website-" +:+ gamma); Some ("prod-website-" +:+ prod)] /\
    "gamma-website-" +:+ gamma <> "prod-website-" +:+ prod.
Proof.
  intros R. pose proof (run_websites library i stacks R) as W.
  destruct (run_returned library i stacks R) as (F & _ & _).
  destruct (valid_config i F)
    as (dns & gamma & prod & domain & owner & name & E1 & E2 & E3 & _).
  exists gamma, prod.
  change (App.get (App.config i) "gammaAccount") with (App.gammaAccount (App.config i)).
  change (App.get (App.config i) "prodAccount") with (App.prodAccount (App.config i)).
  split; [exact E2|]. split; [exact E3|]. split; [|discriminate].
  rewrite W. unfold App.websiteProps, App.stageAccounts. rewrite E2, E3. reflexivity.
Qed.

Lemma X22_bucket_names_differ_witness :
  exists gamma prod,
    App.get (App.config Example.inputs) "gammaAccount" = Some gamma /\
    App.get (App.config Example.inputs) "prodAccount" = Some prod /\
    map (fun w => Deployment.bucketName (snd w))
        (App.websites (snd (App.run Checks.library Example.inputs))) =
      [Some ("gamma-website-" +:+ gamma); Some ("prod-website-" +:+ prod)] /\
    "gamma-website-" +:+ gamma <> "prod-website-" +:+ prod.
Proof.
  apply (X22_bucket_names_differ Checks.library Example.inputs
           (snd (App.run Checks.library Example.inputs))).
  vm_compute. reflexivity.
Defined.

(** ** The root certificate stack, in full *)

(** X23. The root certificate stack replaces the environment of its
    props as a whole: the account the props name is dropped, so the stack's
    account is left to the deploy-time pseudo parameter, while the
    description of the props is passed on.  Its certificate covers the
    root domain, *.<root> and prod.<root>, and is validated by DNS in the
    construct HostedZone, the zone imported with the id and name of the
    props; the three constructs refer backwards only. *)
Theorem X23_root_certificate_stack (stackId : string)
    (props : RootCertificateStack.RootCertificateStackProps) :
  let s := RootCertificateStack.new stackId props in
  let root := RootCertificateStack.rootHostedZoneName props in
  Cdk.stack_account (stack s) = Cdk.Pseudo "AWS::AccountId" /\
  Cdk.description (RootCertificateStack.superProps props) =
    Cdk.description (RootCertificateStack.base props) /\
  Construct.ids (scope s) = ["HostedZone"; "MultiDomainCertificate"; "CertificateArnOutput"] /\
  Construct.find (scope s) "HostedZone" =
    Some (HostedZoneFromAttributes (RootCertificateStack.rootHostedZoneId props) root) /\
  (exists certificate,
      Construct.find (scope s) "MultiDomainCertificate" = Some certificate /\
      certificate =
        Certificate root ["*." +:+ root; "prod." +:+ root] (fromDns (Some "HostedZone")) /\
      Website.declaredNames certificate =
        Some [root; "*." +:+ root; "prod." +:+ root]) /\
  Graph.closed (scope s) = true.
Proof.
  intros s root. do 4 (split; [reflexivity|]).
  split; [eexists; split; [reflexivity | split; reflexivity] | reflexivity].
Qed.

(** ** The entry point of part_002 *)

Lemma org_run_bind {A B : Type} (m : OrgApp.Run A) (k : A -> OrgApp.Run B)
    (st : list OrgApp.StackDecl) :
  bind m k st =
  match m st with
  | (App.Returned a, st') => k a st'
  | (App.Thrown message, st') => (App.Thrown message, st')
  end.
Proof. reflexivity. Qed.

Lemma org_validate_run (c : OrgApp.Config) (st : list OrgApp.StackDecl) :
  OrgApp.validate c st =
  match OrgApp.firstMissing c with
  | Some field => (App.Thrown (App.missing field), st)
  | None => (App.Returned tt, st)
  end.
Proof.
  unfold OrgApp.validate, OrgApp.firstMissing.
  induction OrgApp.requiredFields as [|f fs IH]; [reflexivity|].
  cbn [for_of List.find]. rewrite org_run_bind.
  destruct (negb (Js.truthy (OrgApp.get c f))); [reflexivity|].
  cbn. exact IH.
Qed.



Lemma org_construct_returned (library : OrgApp.Library)
    (ds stacks : list OrgApp.StackDecl) :
  OrgApp.construct library ds = (App.Returned tt, stacks) -> stacks = ds.
Proof.
  revert stacks. induction ds as [|d ds IH]; intros stacks.
  - intros E. now injection E as <-.
  - cbn [OrgApp.construct]. destruct (library d); [discriminate|].
    destruct (OrgApp.construct library ds) as [o built]. cbn [fst snd].
    intros E. injection E as -> <-. now rewrite (IH built eq_refl).
Qed.


Lemma org_run_construct (library : OrgApp.Library) (i : App.Inputs) :
  OrgApp.run library i =
  match OrgApp.firstMissing (OrgApp.config i) with
  | Some field => (App.Thrown (App.missing field), [])
  | None => OrgApp.construct library (OrgApp.calls (OrgApp.config i))
  end.
Proof.
  unfold OrgApp.run, OrgApp.main. rewrite org_run_bind, org_validate_run.
  destruct (OrgApp.firstMissing (OrgApp.config i)); [reflexivity|].
  unfold OrgApp.calls.
  cbn [OrgApp.construct bind ret OrgApp.Run_Sequenced].
  unfold OrgApp.instantiate. each_call library; reflexivity.
Qed.


Lemma org_stacks (library : OrgApp.Library) (i : App.Inputs)
    (stacks : list OrgApp.StackDecl) :
  OrgApp.run library i = (App.Returned tt, stacks) ->
  OrgApp.firstMissing (OrgApp.config i) = None /\
  stacks = OrgApp.calls (OrgApp.config i).
Proof.
  rewrite org_run_construct.
  destruct (OrgApp.firstMissing (OrgApp.config i)); [discriminate|].
  intros E. split; [reflexivity|]. now apply org_construct_returned in E.
Qed.

(** X25. When the entry point of part_002 returns, it has instantiated the
    two website stacks and then the two role stacks and no DNS stack; the
    role stack of prod is given the configured organisation and repository,
    both non-empty, while the role stack of gamma is given colbychaskell
    and clhaskell-cdk whatever the configuration says; both are pinned to
    the branch main. *)
Theorem X25_org_app_deployment (library : OrgApp.Library) (i : App.Inputs)
    (stacks : list OrgApp.StackDecl) :
  OrgApp.run library i = (App.Returned tt, stacks) ->
  exists gammaSite prodSite gammaEnv prodEnv org name,
    OrgApp.get (OrgApp.config i) "repoOrg" = Some org /\
    OrgApp.get (OrgApp.config i) "repoName" = Some name /\
    org <> EmptyString /\ name <> EmptyString /\
    StaticWebsiteStack.stageName gammaSite = "gamma" /\
    StaticWebsiteStack.stageName prodSite = "prod" /\
    stacks =
      [ OrgApp.NewStaticWebsiteStack "GammaStaticWebsiteStack" gammaSite;
        OrgApp.NewStaticWebsiteStack "ProdStaticWebsiteStack" prodSite;
        OrgApp.NewGitHubActionsRoleStack "GammaGitHubActionsRole"
          {| OrgApp.role_base := gammaEnv;
             OrgApp.role_repoOrg := "colbychaskell";
             OrgApp.role_repoName := "clhaskell-cdk";
             OrgApp.role_githubBranch := "main" |};
        OrgApp.NewGitHubActionsRoleStack "ProdGitHubActionsRole"
          {| OrgApp.role_base := prodEnv;
             OrgApp.role_repoOrg := org;
             OrgApp.role_repoName := name;
             OrgApp.role_githubBranch := "main" |} ].
Proof.
  intros R. destruct (org_stacks library i stacks R) as (F & ->). clear R.
  assert (V : forall field, In field OrgApp.requiredFields ->
                exists s, OrgApp.get (OrgApp.config i) field = Some s /\ s <> EmptyString).
  { intros field H. pose proof (find_none _ _ F field H) as N. cbn beta in N.
    apply negb_false_iff in N. now apply truthy_value. }
  destruct (V "repoOrg") as (org & Eo & No); [cbn; tauto|].
  destruct (V "repoName") as (name & En & Nn); [cbn; tauto|].
  eexists. eexists. eexists. eexists. exists org, name.
  do 4 (split; [assumption|]).
  change (OrgApp.get (OrgApp.config i) "repoOrg") with (OrgApp.repoOrg (OrgApp.config i)) in Eo.
  change (OrgApp.get (OrgApp.config i) "repoName") with (OrgApp.repoName (OrgApp.config i)) in En.
  unfold OrgApp.calls. rewrite Eo, En.
  split; [|split]; [ | | reflexivity]; reflexivity.
Qed.

Lemma X25_org_app_deployment_witness :
  exists gammaSite prodSite gammaEnv prodEnv org name,
    OrgApp.get (OrgApp.config Sample.both) "repoOrg" = Some org /\
    OrgApp.get (OrgApp.config Sample.both) "repoName" = Some name /\
    org <> EmptyString /\ name <> EmptyString /\
    StaticWebsiteStack.stageName gammaSite = "gamma" /\
    StaticWebsiteStack.stageName prodSite = "prod" /\
    snd (OrgApp.run Checks.orgLibrary Sample.both) =
      [ OrgApp.NewStaticWebsiteStack "GammaStaticWebsiteStack" gammaSite;
        OrgApp.NewStaticWebsiteStack "ProdStaticWebsiteStack" prodSite;
        OrgApp.NewGitHubActionsRoleStack "GammaGitHubActionsRole"
          {| OrgApp.role_base := gammaEnv;
             OrgApp.role_repoOrg := "colbychaskell";
             OrgApp.role_repoName := "clhaskell-cdk";
             OrgApp.role_githubBranch := "main" |};
        OrgApp.NewGitHubActionsRoleStack "ProdGitHubActionsRole"
          {| OrgApp.role_base := prodEnv;
             OrgApp.role_repoOrg := org;
             OrgApp.role_repoName := name;
             OrgApp.role_githubBranch := "main" |} ].
Proof.
  apply (X25_org_app_deployment Checks.orgLibrary Sample.both
           (snd (OrgApp.run Checks.orgLibrary Sample.both))).
  vm_compute. reflexivity.
Defined.

